(** * FiringRange: a Mifflin-St Jeor BMR / TDEE calculator

    Shallow embedding of the two Python programs of the repository,

    - [firingrange.py]: the text front end (conversions, formulas,
      activity table, [Person]);
    - [tdee_gui.py]: the windowed front end (the same core, its own
      activity table and [Person], the [TDEEApp] form with its
      [compute] and [clear] actions).

    Conventions of the embedding.

    - A Python [int] is an integer ([Z]).  In the two programs a
      Python [float] is an exact rational ([Q]): their arithmetic is
      the exact arithmetic the specification speaks about, and
      equality of floats is [Qeq].  The conversion of an [int] to a
      [float] raises [OverflowError] outside the range of binary64, as
      in Python.
    - The four conversions are embedded a second time in binary64
      arithmetic ([binary64], on the floats of [SpecFloat]), with
      rounding to nearest, underflow and overflow; the round trip of
      the specification is settled there.
    - A Python [str] is a [string] of UTF-8 bytes.  [str.lower] lowers
      the ASCII letters and the two characters outside ASCII whose
      lower case has an ASCII character in it; it keeps the bytes of
      the others, whose lower case has none.
    - A function that can raise returns a [result]; methods of the
      form thread the widget state through a state-and-exception
      monad, so that a mutation made before an exception stays made,
      as in Python.
    - A [dict] literal is an association list in insertion order
      (the order matters to [', '.join] and to [list(...)[1]]). *)

From Stdlib Require Import ZArith QArith Lqa Lia List String Ascii Bool.
From Stdlib Require Import Qround Qabs Qpower Sorted DecimalString SpecFloat.
Import ListNotations.

(* ================================================================== *)
(** * Python values, exceptions and built-ins *)
(* ================================================================== *)

Module Py.

Definition float : Type := Q.

(** The exception classes the two programs can meet.  All of them are
    subclasses of [Exception]; only [ValueError] is a [ValueError]. *)
Inductive exn : Type :=
| ValueError (msg : string)
| KeyError (key : string)
| IndexError (msg : string)
| ZeroDivisionError (msg : string)
| OverflowError (msg : string).

Inductive result (A : Type) : Type :=
| Ok (a : A)
| Raise (e : exn).
Arguments Ok {A} a.
Arguments Raise {A} e.

Definition bind {A B : Type} (m : result A) (k : A -> result B) : result B :=
  match m with
  | Ok a => k a
  | Raise e => Raise e
  end.

Definition returns {A : Type} (m : result A) : Prop := exists a, m = Ok a.

(** Results of float type, compared up to the equality of rationals. *)
Definition result_eq (m n : result float) : Prop :=
  match m, n with
  | Ok a, Ok b => a == b
  | Raise e, Raise e' => e = e'
  | _, _ => False
  end.

(** [float / float]: true division raises on a zero divisor. *)
Definition truediv (a b : float) : result float :=
  if Qeq_bool b 0 then Raise (ZeroDivisionError "float division by zero")
  else Ok (a / b).

(** The least magnitude of an [int] that has no [float]: the integers
    of magnitude below [2^1024 - 2^970] round into the range of
    binary64, the others do not. *)
Definition float_int_limit : Z := (2 ^ 1024 - 2 ^ 970)%Z.

(** [float(n)] for an [int] operand met by a float operator: the
    conversion raises [OverflowError] when the integer is out of the
    range of a float. *)
Definition of_int (n : Z) : result float :=
  if (float_int_limit <=? Z.abs n)%Z then
    Raise (OverflowError "int too large to convert to float")
  else Ok (inject_Z n).

(** [str.lower] on an ASCII character. *)
Definition lower_ascii (c : ascii) : ascii :=
  let n := nat_of_ascii c in
  if (65 <=? n)%nat && (n <=? 90)%nat then ascii_of_nat (n + 32) else c.

(** [str.lower] on the UTF-8 bytes of a string.  An ASCII letter is
    lowered.  Two characters outside ASCII lower to text that has an
    ASCII character in it, and are lowered as Python lowers them:

    - U+212A KELVIN SIGN (bytes 226 132 170) lowers to ["k"];
    - U+0130 LATIN CAPITAL LETTER I WITH DOT ABOVE (bytes 196 176)
      lowers to ["i"] followed by U+0307 (bytes 204 135).

    Every other character outside ASCII lowers to characters outside
    ASCII; the embedding keeps its bytes as they are.  So a lowered
    string is equal to an ASCII string here exactly when it is in
    Python, and the programs only ever compare a lowered string with
    ASCII strings when their lists of choices are ASCII. *)
Fixpoint lower (s : string) : string :=
  match s with
  | EmptyString => EmptyString
  | String "226" (String "132" (String "170" s')) => String "k" (lower s')
  | String "196" (String "176" s') =>
      String "i" (String "204" (String "135" (lower s')))
  | String c s' => String (lower_ascii c) (lower s')
  end.

(** [s.isascii()] *)
Fixpoint isascii (s : string) : bool :=
  match s with
  | EmptyString => true
  | String c s' => (nat_of_ascii c <? 128)%nat && isascii s'
  end.

(** [x in (a, b, ...)] for strings. *)
Definition in_tuple (x : string) (t : list string) : bool :=
  existsb (String.eqb x) t.

(** [sep.join(parts)] *)
Fixpoint join (sep : string) (parts : list string) : string :=
  match parts with
  | [] => EmptyString
  | [p] => p
  | p :: rest => p ++ sep ++ join sep rest
  end.

(** A [dict] with string keys, in insertion order. *)
Definition dict (V : Type) : Type := list (string * V).

Definition dict_keys {V : Type} (d : dict V) : list string := map fst d.

Definition dict_values {V : Type} (d : dict V) : list V := map snd d.

Fixpoint dict_get {V : Type} (d : dict V) (k : string) : option V :=
  match d with
  | [] => None
  | (k', v) :: d' => if String.eqb k k' then Some v else dict_get d' k
  end.

(** [k in d] *)
Definition dict_contains {V : Type} (k : string) (d : dict V) : bool :=
  match dict_get d k with
  | Some _ => true
  | None => false
  end.

(** [d[k]] *)
Definition dict_getitem {V : Type} (d : dict V) (k : string) : result V :=
  match dict_get d k with
  | Some v => Ok v
  | None => Raise (KeyError k)
  end.

(** [l[i]] for a non-negative index. *)
Definition list_getitem {A : Type} (l : list A) (i : nat) : result A :=
  match nth_error l i with
  | Some a => Ok a
  | None => Raise (IndexError "list index out of range")
  end.

End Py.

Export Py.

Declare Scope py_scope.
Delimit Scope py_scope with py.
Notation "x <- m ;; k" := (bind m (fun x => k))
  (at level 61, m at next level, right associativity) : py_scope.
Notation "a /! b" := (truediv a b) (at level 40, left associativity) : py_scope.
Notation "m ~= n" := (result_eq m n) (at level 70, no associativity) : py_scope.

Open Scope string_scope.
Open Scope Q_scope.
Open Scope py_scope.

(* ================================================================== *)
(** * firingrange.py *)
(* ================================================================== *)

Module firingrange.

(** ** Conversions *)

Definition lbs_to_kg (lbs : float) : float := lbs * 0.45359237.

Definition kg_to_lbs (kg : float) : result float := kg /! 0.45359237.

Definition inches_to_cm (inches : float) : float := inches * 2.54.

Definition cm_to_inches (cm : float) : result float := cm /! 2.54.

(** ** Core formulas *)

Definition bmr_mifflin_st_jeor
  (sex : string) (weight_kg height_cm : float) (age_years : Z) : result float :=
  let s := lower sex in
  if negb (in_tuple s ["m"; "f"]) then
    Raise (ValueError "sex must be 'm' or 'f'")
  else
    age_term <- of_int (5 * age_years) ;;
    let base := 10 * weight_kg + 6.25 * height_cm - age_term in
    Ok (if String.eqb s "m" then base + 5 else base - 161).

Definition ACTIVITY_FACTORS : dict float :=
  [ ("sedentary", 1.2);
    ("light", 1.375);
    ("moderate", 1.55);
    ("very", 1.725);
    ("athlete", 1.9) ].

Definition tdee_from_bmr (bmr : float) (activity_key : string) : result float :=
  let key := lower activity_key in
  if negb (dict_contains key ACTIVITY_FACTORS) then
    Raise (ValueError
             ("activity must be one of: " ++ join ", " (dict_keys ACTIVITY_FACTORS)))
  else
    factor <- dict_getitem ACTIVITY_FACTORS key ;;
    Ok (bmr * factor).

(** ** Data model *)

Record Person : Type := mkPerson {
  sex : string;
  age : Z;
  weight : float;
  weight_unit : string;
  height : float;
  height_unit : string;
  activity : string
}.

Definition weight_kg (self : Person) : float :=
  if String.eqb (lower (weight_unit self)) "kg" then weight self
  else lbs_to_kg (weight self).

Definition height_cm (self : Person) : float :=
  if String.eqb (lower (height_unit self)) "cm" then height self
  else inches_to_cm (height self).

(** ** CLI helpers *)

(** The console: the lines still to be read from standard input, and the
    pieces of text written to standard output so far, oldest first. *)
Record console : Type := mkConsole {
  stdin : list string;
  stdout : list string
}.

(** How a function that talks to the console ends: it returns, it
    raises one of the exceptions above, or [input] finds standard input
    at its end (Python's [EOFError], which nothing here catches). *)
Inductive outcome (A : Type) : Type :=
| Returned (a : A)
| Raised (e : exn)
| EndOfInput.
Arguments Returned {A} a.
Arguments Raised {A} e.
Arguments EndOfInput {A}.

Definition IO (A : Type) : Type := console -> outcome A * console.

Definition io_bind {A B : Type} (m : IO A) (k : A -> IO B) : IO B :=
  fun c =>
    match m c with
    | (Returned a, c') => k a c'
    | (Raised e, c') => (Raised e, c')
    | (EndOfInput, c') => (EndOfInput, c')
    end.

Definition io_lift {A : Type} (r : result A) : IO A :=
  fun c =>
    match r with
    | Ok a => (Returned a, c)
    | Raise e => (Raised e, c)
    end.

Notation "x <<- m ;; k" := (io_bind m (fun x => k))
  (at level 61, m at next level, right associativity).
Notation "m ;;; k" := (io_bind m (fun _ => k))
  (at level 61, right associativity).

Definition nl : string := String (ascii_of_nat 10) EmptyString.

(** [print(s)] *)
Definition print (s : string) : IO unit :=
  fun c => (Returned tt, mkConsole (stdin c) (stdout c ++ [s ++ nl])).

(** [input(prompt)] *)
Definition input (prompt : string) : IO string :=
  fun c =>
    match stdin c with
    | [] => (EndOfInput, mkConsole [] (stdout c ++ [prompt]))
    | line :: rest => (Returned line, mkConsole rest (stdout c ++ [prompt]))
    end.

Section Builtins.

(** Python built-ins the text front end calls, taken as parameters:
    - [strip]: [s.strip()];
    - [int_of_str]: [int(s)];
    - [float_of_str]: [float(s)];
    - [format_f d x]: [format(x, '.df')], as in an f-string [{x:.df}]. *)
Variable strip : string -> string.
Variable int_of_str : string -> result Z.
Variable float_of_str : string -> result float.
Variable format_f : nat -> float -> string.

(** [ask_float]: the [while True] loop reads one line per turn, so it is
    written by recursion on the lines left to read; [out] is what has
    been written so far. *)
Fixpoint ask_float_from (prompt : string) (lines : list string) (out : list string)
  : outcome float * console :=
  match lines with
  | [] => (EndOfInput, mkConsole [] (out ++ [prompt]))
  | line :: rest =>
      match float_of_str (strip line) with
      | Ok x => (Returned x, mkConsole rest (out ++ [prompt]))
      | Raise (ValueError _) =>
          ask_float_from prompt rest
            (out ++ [prompt] ++ ["Please enter a number." ++ nl])
      | Raise e => (Raised e, mkConsole rest (out ++ [prompt]))
      end
  end.

Definition ask_float (prompt : string) : IO float :=
  fun c => ask_float_from prompt (stdin c) (stdout c).

(** [ask_int] *)
Fixpoint ask_int_from (prompt : string) (lines : list string) (out : list string)
  : outcome Z * console :=
  match lines with
  | [] => (EndOfInput, mkConsole [] (out ++ [prompt]))
  | line :: rest =>
      match int_of_str (strip line) with
      | Ok n => (Returned n, mkConsole rest (out ++ [prompt]))
      | Raise (ValueError _) =>
          ask_int_from prompt rest
            (out ++ [prompt] ++ ["Please enter an integer." ++ nl])
      | Raise e => (Raised e, mkConsole rest (out ++ [prompt]))
      end
  end.

Definition ask_int (prompt : string) : IO Z :=
  fun c => ask_int_from prompt (stdin c) (stdout c).

(** [ask_choice] *)
Fixpoint ask_choice_from (prompt : string) (choices choices_lower : list string)
  (lines : list string) (out : list string) : outcome string * console :=
  match lines with
  | [] => (EndOfInput, mkConsole [] (out ++ [prompt]))
  | line :: rest =>
      let val := lower (strip line) in
      if in_tuple val choices_lower then
        (Returned val, mkConsole rest (out ++ [prompt]))
      else
        ask_choice_from prompt choices choices_lower rest
          (out ++ [prompt] ++ ["Please choose one of: " ++ join ", " choices ++ nl])
  end.

Definition ask_choice (prompt : string) (choices : list string) : IO string :=
  fun c =>
    let choices_lower := map lower choices in
    ask_choice_from prompt choices choices_lower (stdin c) (stdout c).

(** [main] *)
Definition main : IO unit :=
  print "=== Mifflin–St Jeor Daily Energy Expenditure Tool ===" ;;;
  sex <<- ask_choice "Sex (m/f): " ["m"; "f"] ;;
  age <<- ask_int "Age (years): " ;;
  w_unit <<- ask_choice "Is your weight in kg or lb? (kg/lb): " ["kg"; "lb"] ;;
  weight <<- ask_float ("Weight (" ++ w_unit ++ "): ") ;;
  h_unit <<- ask_choice "Is your height in cm or in? (cm/in): " ["cm"; "in"] ;;
  height <<- ask_float ("Height (" ++ h_unit ++ "): ") ;;
  print (nl ++ "Activity levels:") ;;;
  print "  sedentary = little/no exercise" ;;;
  print "  light     = 1–3 days/wk" ;;;
  print "  moderate  = 3–5 days/wk" ;;;
  print "  very      = 6–7 days/wk" ;;;
  print "  athlete   = very hard exercise/physical job" ;;;
  activity <<- ask_choice "Choose activity (sedentary/light/moderate/very/athlete): "
                          (dict_keys ACTIVITY_FACTORS) ;;
  let person := mkPerson sex age weight w_unit height h_unit activity in
  let w_kg := weight_kg person in
  let h_cm := height_cm person in
  bmr <<- io_lift (bmr_mifflin_st_jeor (firingrange.sex person) w_kg h_cm
                                       (firingrange.age person)) ;;
  tdee <<- io_lift (tdee_from_bmr bmr (firingrange.activity person)) ;;
  print (nl ++ "--- Results ---") ;;;
  print ("BMR (kcal/day): " ++ format_f 0 bmr) ;;;
  print ("TDEE (kcal/day): " ++ format_f 0 tdee) ;;;
  print (nl ++ "For reference:") ;;;
  w_lb <<- io_lift (kg_to_lbs w_kg) ;;
  print ("  Weight: " ++ format_f 1 w_kg ++ " kg  (" ++ format_f 1 w_lb ++ " lb)") ;;;
  h_in <<- io_lift (cm_to_inches h_cm) ;;
  print ("  Height: " ++ format_f 1 h_cm ++ " cm  (" ++ format_f 1 h_in ++ " in)") ;;;
  factor <<- io_lift (dict_getitem ACTIVITY_FACTORS activity) ;;
  print ("  Activity factor used: " ++ format_f 3 factor).

End Builtins.

End firingrange.

(* ================================================================== *)
(** * tdee_gui.py *)
(* ================================================================== *)

Module tdee_gui.

(** ** Conversions *)

Definition lbs_to_kg (lbs : float) : float := lbs * 0.45359237.

Definition kg_to_lbs (kg : float) : result float := kg /! 0.45359237.

Definition inches_to_cm (inches : float) : float := inches * 2.54.

Definition cm_to_inches (cm : float) : result float := cm /! 2.54.

(** ** Core formulas *)

Definition bmr_mifflin_st_jeor
  (sex : string) (weight_kg height_cm : float) (age_years : Z) : result float :=
  let s := lower sex in
  if negb (in_tuple s ["m"; "f"]) then
    Raise (ValueError "sex must be 'm' or 'f'")
  else
    age_term <- of_int (5 * age_years) ;;
    let base := 10 * weight_kg + 6.25 * height_cm - age_term in
    Ok (if String.eqb s "m" then base + 5 else base - 161).

Definition ACTIVITY_FACTORS : dict float :=
  [ ("Sedentary (little/no exercise)", 1.2);
    ("Light (1–3 days/wk)", 1.375);
    ("Moderate (3–5 days/wk)", 1.55);
    ("Very (6–7 days/wk)", 1.725);
    ("Athlete (very hard/physical job)", 1.9) ].

(** ** Model *)

Record Person : Type := mkPerson {
  sex : string;
  age : Z;
  weight : float;
  weight_unit : string;
  height : float;
  height_unit : string;
  activity_label : string
}.

Definition weight_kg (self : Person) : float :=
  if String.eqb (weight_unit self) "kg" then weight self
  else lbs_to_kg (weight self).

Definition height_cm (self : Person) : float :=
  if String.eqb (height_unit self) "cm" then height self
  else inches_to_cm (height self).

(** ** GUI *)

(** The state of the form: the seven [StringVar]s behind the entry
    fields and selectors, and the text of the three result labels. *)
Record TDEEApp : Type := mkApp {
  sex_var : string;
  age_var : string;
  weight_var : string;
  weight_unit_var : string;
  height_var : string;
  height_unit_var : string;
  activity_var : string;
  bmr_label : string;
  tdee_label : string;
  ref_label : string
}.

(** A modal error dialog: [messagebox.showerror(title, message)]. *)
Record dialog : Type := showerror { dlg_title : string; dlg_message : string }.

(** Methods of the form: a computation over the widget state that can
    raise.  When it raises, the state reached so far is kept. *)
Definition M (A : Type) : Type := TDEEApp -> result A * TDEEApp.

Definition ret {A : Type} (a : A) : M A := fun app => (Ok a, app).

Definition mbind {A B : Type} (m : M A) (k : A -> M B) : M B :=
  fun app =>
    match m app with
    | (Ok a, app') => k a app'
    | (Raise e, app') => (Raise e, app')
    end.

Definition lift {A : Type} (r : result A) : M A := fun app => (r, app).

(** [var.get()] *)
Definition get (var : TDEEApp -> string) : M string := fun app => (Ok (var app), app).

Definition modify (f : TDEEApp -> TDEEApp) : M unit := fun app => (Ok tt, f app).

Notation "x <~ m ;; k" := (mbind m (fun x => k))
  (at level 61, m at next level, right associativity).
Notation "m ;;; k" := (mbind m (fun _ => k))
  (at level 61, right associativity).

(** [var.set(v)] and [label.config(text=v)], one per widget. *)
Definition set_sex_var (v : string) : M unit :=
  modify (fun a => mkApp v (age_var a) (weight_var a) (weight_unit_var a) (height_var a)
                         (height_unit_var a) (activity_var a)
                         (bmr_label a) (tdee_label a) (ref_label a)).

Definition set_age_var (v : string) : M unit :=
  modify (fun a => mkApp (sex_var a) v (weight_var a) (weight_unit_var a) (height_var a)
                         (height_unit_var a) (activity_var a)
                         (bmr_label a) (tdee_label a) (ref_label a)).

Definition set_weight_var (v : string) : M unit :=
  modify (fun a => mkApp (sex_var a) (age_var a) v (weight_unit_var a) (height_var a)
                         (height_unit_var a) (activity_var a)
                         (bmr_label a) (tdee_label a) (ref_label a)).

Definition set_weight_unit_var (v : string) : M unit :=
  modify (fun a => mkApp (sex_var a) (age_var a) (weight_var a) v (height_var a)
                         (height_unit_var a) (activity_var a)
                         (bmr_label a) (tdee_label a) (ref_label a)).

Definition set_height_var (v : string) : M unit :=
  modify (fun a => mkApp (sex_var a) (age_var a) (weight_var a) (weight_unit_var a) v
                         (height_unit_var a) (activity_var a)
                         (bmr_label a) (tdee_label a) (ref_label a)).

Definition set_height_unit_var (v : string) : M unit :=
  modify (fun a => mkApp (sex_var a) (age_var a) (weight_var a) (weight_unit_var a)
                         (height_var a) v (activity_var a)
                         (bmr_label a) (tdee_label a) (ref_label a)).

Definition set_activity_var (v : string) : M unit :=
  modify (fun a => mkApp (sex_var a) (age_var a) (weight_var a) (weight_unit_var a)
                         (height_var a) (height_unit_var a) v
                         (bmr_label a) (tdee_label a) (ref_label a)).

Definition config_bmr_label (v : string) : M unit :=
  modify (fun a => mkApp (sex_var a) (age_var a) (weight_var a) (weight_unit_var a)
                         (height_var a) (height_unit_var a) (activity_var a)
                         v (tdee_label a) (ref_label a)).

Definition config_tdee_label (v : string) : M unit :=
  modify (fun a => mkApp (sex_var a) (age_var a) (weight_var a) (weight_unit_var a)
                         (height_var a) (height_unit_var a) (activity_var a)
                         (bmr_label a) v (ref_label a)).

Definition config_ref_label (v : string) : M unit :=
  modify (fun a => mkApp (sex_var a) (age_var a) (weight_var a) (weight_unit_var a)
                         (height_var a) (height_unit_var a) (activity_var a)
                         (bmr_label a) (tdee_label a) v).

(** The three result labels, as a triple. *)
Definition labels (app : TDEEApp) : string * string * string :=
  (bmr_label app, tdee_label app, ref_label app).

(** The placeholder shown in a result label that holds no result. *)
Definition placeholder : string := "—".

(** [TDEEApp.__init__]: the state of a freshly built form. *)
Definition init : result TDEEApp :=
  activity <- list_getitem (dict_keys ACTIVITY_FACTORS) 1 ;;
  Ok {| sex_var := "m";
        age_var := "";
        weight_var := "";
        weight_unit_var := "kg";
        height_var := "";
        height_unit_var := "cm";
        activity_var := activity;
        bmr_label := "BMR (kcal/day): —";
        tdee_label := "TDEE (kcal/day): —";
        ref_label := "Reference: —" |}.

(** [TDEEApp.clear] *)
Definition clear : M unit :=
  set_age_var "" ;;;
  set_weight_var "" ;;;
  set_height_var "" ;;;
  set_sex_var "m" ;;;
  set_weight_unit_var "kg" ;;;
  set_height_unit_var "cm" ;;;
  (second <~ lift (list_getitem (dict_keys ACTIVITY_FACTORS) 1) ;;
   set_activity_var second) ;;;
  config_bmr_label "BMR (kcal/day): —" ;;;
  config_tdee_label "TDEE (kcal/day): —" ;;;
  config_ref_label "Reference: —".

(** The sanity checks of [TDEEApp.compute] (the five [if ... raise]
    statements after the fields are read), in source order. *)
Definition validate (age : Z) (weight height : float) (w_unit h_unit : string)
  : result unit :=
  if negb ((14 <=? age)%Z && (age <=? 90)%Z) then
    Raise (ValueError "Age must be between 14 and 90.")
  else if String.eqb w_unit "kg" && negb (Qle_bool 30 weight && Qle_bool weight 300) then
    Raise (ValueError "Weight in kg must be between 30 and 300.")
  else if String.eqb w_unit "lb" && negb (Qle_bool 66 weight && Qle_bool weight 660) then
    Raise (ValueError "Weight in lb must be between 66 and 660.")
  else if String.eqb h_unit "cm" && negb (Qle_bool 120 height && Qle_bool height 220) then
    Raise (ValueError "Height in cm must be between 120 and 220.")
  else if String.eqb h_unit "in" && negb (Qle_bool 47 height && Qle_bool height 87) then
    Raise (ValueError "Height in inches must be between 47 and 87.")
  else Ok tt.

Definition newline : string := String (ascii_of_nat 10) EmptyString.

Section Builtins.

(** Python built-ins the form calls, taken as parameters: nothing below
    depends on which strings they accept or how they print.
    - [int_of_str]: [int(s)];
    - [float_of_str]: [float(s)];
    - [format_f d x]: [format(x, '.df')], as in an f-string [{x:.df}];
    - [repr]: [repr(s)] of a string (it is what [str] of a [KeyError]
      shows). *)
Variable int_of_str : string -> result Z.
Variable float_of_str : string -> result float.
Variable format_f : nat -> float -> string.
Variable repr : string -> string.

(** [str(e)] *)
Definition str_exn (e : exn) : string :=
  match e with
  | ValueError msg => msg
  | KeyError key => repr key
  | IndexError msg => msg
  | ZeroDivisionError msg => msg
  | OverflowError msg => msg
  end.

(** The body of the [try] statement of [TDEEApp.compute]. *)
Definition compute_try : M unit :=
  age_s <~ get age_var ;;
  age <~ lift (int_of_str age_s) ;;
  weight_s <~ get weight_var ;;
  weight <~ lift (float_of_str weight_s) ;;
  height_s <~ get height_var ;;
  height <~ lift (float_of_str height_s) ;;
  sex <~ get sex_var ;;
  w_unit <~ get weight_unit_var ;;
  h_unit <~ get height_unit_var ;;
  activity <~ get activity_var ;;
  lift (validate age weight height w_unit h_unit) ;;;
  let person := mkPerson sex age weight w_unit height h_unit activity in
  let w_kg := weight_kg person in
  let h_cm := height_cm person in
  bmr <~ lift (bmr_mifflin_st_jeor (tdee_gui.sex person) w_kg h_cm (tdee_gui.age person)) ;;
  factor <~ lift (dict_getitem ACTIVITY_FACTORS activity) ;;
  let tdee := bmr * factor in
  config_bmr_label ("BMR (kcal/day): " ++ format_f 0 bmr) ;;;
  config_tdee_label ("TDEE (kcal/day): " ++ format_f 0 tdee) ;;;
  w_lb <~ lift (kg_to_lbs w_kg) ;;
  h_in <~ lift (cm_to_inches h_cm) ;;
  config_ref_label
    ("Reference: weight " ++ format_f 1 w_kg ++ " kg (" ++ format_f 1 w_lb ++ " lb), "
     ++ "height " ++ format_f 1 h_cm ++ " cm (" ++ format_f 1 h_in ++ " in), "
     ++ "activity factor " ++ format_f 3 factor).

(** [TDEEApp.compute]: the [try] body with its two handlers.  The
    outcome is the state of the form afterwards and the dialog shown,
    if any. *)
Definition compute (app : TDEEApp) : TDEEApp * option dialog :=
  match compute_try app with
  | (Ok _, app') => (app', None)
  | (Raise (ValueError msg), app') =>
      (app', Some (showerror "Invalid input" msg))
  | (Raise e, app') =>
      (app', Some (showerror "Error" ("Something went wrong:" ++ newline ++ str_exn e)))
  end.

End Builtins.

End tdee_gui.

(* ================================================================== *)
(** * A runnable instance of the built-ins *)
(* ================================================================== *)

(** Plain decimal versions of the built-ins the form takes as
    parameters (no exponents, no underscores, no surrounding blanks),
    to run the form on concrete inputs.  The properties of the form are
    proved for every instance, not for this one. *)
Module Sample.

Definition digit_of (c : ascii) : option Z :=
  let n := nat_of_ascii c in
  if (48 <=? n)%nat && (n <=? 57)%nat then Some (Z.of_nat (n - 48)) else None.

Fixpoint digits_acc (s : string) (acc : Z) : option Z :=
  match s with
  | EmptyString => Some acc
  | String c s' =>
      match digit_of c with
      | Some d => digits_acc s' (10 * acc + d)%Z
      | None => None
      end
  end.

Definition unsigned (s : string) : option Z :=
  match s with
  | EmptyString => None
  | _ => digits_acc s 0%Z
  end.

Definition signed (s : string) : option Z :=
  match s with
  | String "-" s' => option_map Z.opp (unsigned s')
  | String "+" s' => unsigned s'
  | _ => unsigned s
  end.

Definition repr (s : string) : string := "'" ++ s ++ "'".

Definition int_of_str (s : string) : result Z :=
  match signed s with
  | Some n => Ok n
  | None => Raise (ValueError ("invalid literal for int() with base 10: " ++ repr s))
  end.

(** Splits at the first dot: the part before it and, if there is a dot,
    the part after it. *)
Fixpoint split_dot (s : string) : string * option string :=
  match s with
  | EmptyString => (EmptyString, None)
  | String "." s' => (EmptyString, Some s')
  | String c s' => let (a, b) := split_dot s' in (String c a, b)
  end.

Definition unsigned_float (s : string) : option float :=
  match split_dot s with
  | (ip, None) => option_map inject_Z (unsigned ip)
  | (EmptyString, Some fp) =>
      option_map (fun n => inject_Z n / inject_Z (10 ^ Z.of_nat (String.length fp)))
                 (unsigned fp)
  | (ip, Some fp) =>
      match unsigned ip, digits_acc fp 0%Z with
      | Some i, Some f =>
          Some (inject_Z i + inject_Z f / inject_Z (10 ^ Z.of_nat (String.length fp)))
      | _, _ => None
      end
  end.

Definition float_of_str (s : string) : result float :=
  match (match s with
         | String "-" s' => option_map Qopp (unsigned_float s')
         | String "+" s' => unsigned_float s'
         | _ => unsigned_float s
         end) with
  | Some x => Ok x
  | None => Raise (ValueError ("could not convert string to float: " ++ repr s))
  end.

(** Rounding to the nearest integer, ties to even. *)
Definition round_half_even (x : Q) : Z :=
  let f := Qfloor x in
  match Qcompare (x - inject_Z f) (1 # 2) with
  | Lt => f
  | Gt => (f + 1)%Z
  | Eq => if Z.even f then f else (f + 1)%Z
  end.

Fixpoint zeros (n : nat) : string :=
  match n with
  | O => EmptyString
  | S n' => String "0" (zeros n')
  end.

(** Fixed-point notation with [d] digits after the point. *)
Definition format_f (d : nat) (x : float) : string :=
  let scaled := round_half_even (Qabs x * inject_Z (10 ^ Z.of_nat d)) in
  let ds := NilZero.string_of_uint (N.to_uint (Z.to_N scaled)) in
  let ds := zeros (S d - String.length ds) ++ ds in
  let n := (String.length ds - d)%nat in
  (if Qlt_le_dec x 0 then "-" else "")
  ++ substring 0 n ds
  ++ (match d with O => "" | _ => "." ++ substring n d ds end).

(** A filled-in form, as a user would leave it before pressing Compute. *)
Definition filled (sex age weight height : string) : tdee_gui.TDEEApp :=
  {| tdee_gui.sex_var := sex;
     tdee_gui.age_var := age;
     tdee_gui.weight_var := weight;
     tdee_gui.weight_unit_var := "kg";
     tdee_gui.height_var := height;
     tdee_gui.height_unit_var := "cm";
     tdee_gui.activity_var := "Sedentary (little/no exercise)";
     tdee_gui.bmr_label := "BMR (kcal/day): 1500";
     tdee_gui.tdee_label := "TDEE (kcal/day): 1800";
     tdee_gui.ref_label := "Reference: old" |}.

Definition compute : tdee_gui.TDEEApp -> tdee_gui.TDEEApp * option tdee_gui.dialog :=
  tdee_gui.compute int_of_str float_of_str format_f repr.

(** White space at both ends removed (the ASCII white space
    characters: tab to carriage return, the four separators, space). *)
Definition is_space (c : ascii) : bool :=
  let n := nat_of_ascii c in
  ((9 <=? n)%nat && (n <=? 13)%nat) || ((28 <=? n)%nat && (n <=? 32)%nat).

Fixpoint lstrip (s : string) : string :=
  match s with
  | EmptyString => EmptyString
  | String c s' => if is_space c then lstrip s' else s
  end.

Fixpoint rstrip (s : string) : string :=
  match s with
  | EmptyString => EmptyString
  | String c s' =>
      match rstrip s' with
      | EmptyString => if is_space c then EmptyString else String c EmptyString
      | t => String c t
      end
  end.

Definition strip (s : string) : string := rstrip (lstrip s).

Definition main : firingrange.IO unit :=
  firingrange.main strip int_of_str float_of_str format_f.

(** A console session: what the user types, nothing written yet. *)
Definition typed (lines : list string) : firingrange.console :=
  firingrange.mkConsole lines [].

End Sample.


(* ================================================================== *)
(** * The conversions in binary64 arithmetic *)
(* ================================================================== *)

(** The four conversions once more, as the machine runs them: a Python
    [float] is an IEEE 754 binary64 number, a literal denotes the
    binary64 number nearest to it, and a product or quotient is the
    exact one rounded to nearest, ties to even; it underflows to zero
    and overflows to infinity. *)
Module binary64.

Definition float : Type := spec_float.

Definition prec : Z := 53.

Definition emax : Z := 1024.

(** The values that are binary64 numbers. *)
Definition is_float (x : float) : bool := valid_binary prec emax x.


(** The rational a finite float stands for (0 for the others). *)
Definition value (x : float) : Q :=
  match x with
  | S754_finite s m e => (if s then -1 else 1) * inject_Z (Z.pos m) * 2 ^ e
  | _ => 0
  end.

(** [a * b] *)
Definition mul (a b : float) : float := SFmul prec emax a b.

(** [a / b]: true division raises on a zero divisor. *)
Definition truediv (a b : float) : result float :=
  match b with
  | S754_zero _ => Raise (ZeroDivisionError "float division by zero")
  | _ => Ok (SFdiv prec emax a b)
  end.

(** The literals [0.45359237] and [2.54]. *)
Definition lit_0_45359237 : float := S754_finite false 8171193714040401 (-54).

Definition lit_2_54 : float := S754_finite false 5719571526760530 (-51).

Definition lbs_to_kg (lbs : float) : float := mul lbs lit_0_45359237.

Definition kg_to_lbs (kg : float) : result float := truediv kg lit_0_45359237.

Definition inches_to_cm (inches : float) : float := mul inches lit_2_54.

Definition cm_to_inches (cm : float) : result float := truediv cm lit_2_54.

(** The least positive float, 2^-1074 (written [5e-324]), and the
    floats nearest to [1e308], [154.3] and [68.9]. *)
Definition least_positive : float := S754_finite false 1 (-1074).

Definition lit_1e308 : float := S754_finite false 5010420900022432 971.

Definition lit_154_3 : float := S754_finite false 5428948613306778 (-45).

Definition lit_68_9 : float := S754_finite false 4848406473841050 (-46).

End binary64.


(* ================================================================== *)
(** * Vocabulary of the specification *)
(* ================================================================== *)


(** What a prompt loop of the text front end makes of one line: it
    takes a value from it, it asks again, or an exception escapes. *)
Inductive verdict (A : Type) : Type :=
| Accept (a : A)
| Reject
| Abort (e : exn).
Arguments Accept {A} a.
Arguments Reject {A}.
Arguments Abort {A} e.

(** The verdict of [ask_int] and [ask_float] on a line, from what the
    parser makes of the stripped line. *)
Definition judge_parse {A : Type} (strip : string -> string)
  (parse : string -> result A) (line : string) : verdict A :=
  match parse (strip line) with
  | Ok a => Accept a
  | Raise (ValueError _) => Reject
  | Raise e => Abort e
  end.

(** The verdict of [ask_choice] on a line. *)
Definition judge_choice (strip : string -> string) (choices : list string)
  (line : string) : verdict string :=
  let val := lower (strip line) in
  if in_tuple val (map lower choices) then Accept val else Reject.

(** The shape the three prompt loops share: prompt, read a line, and on
    a rejected line complain and start over. *)
Fixpoint retry {A : Type} (judge : string -> verdict A) (prompt complaint : string)
  (lines : list string) (out : list string)
  : firingrange.outcome A * firingrange.console :=
  match lines with
  | [] => (firingrange.EndOfInput, firingrange.mkConsole [] (out ++ [prompt]))
  | line :: rest =>
      match judge line with
      | Accept a => (firingrange.Returned a, firingrange.mkConsole rest (out ++ [prompt]))
      | Reject => retry judge prompt complaint rest (out ++ [prompt] ++ [complaint])
      | Abort e => (firingrange.Raised e, firingrange.mkConsole rest (out ++ [prompt]))
      end
  end.

(** What the loop has written after rejecting the lines [rejected]: the
    prompt and the complaint once for each of them, then the prompt. *)
Definition asked (prompt complaint : string) (rejected : list string) : list string :=
  flat_map (fun _ => [prompt; complaint]) rejected ++ [prompt].

(** A parser that raises nothing but ValueError, as [int] and [float]
    do on strings. *)
Definition only_ValueError {A : Type} (parse : string -> result A) : Prop :=
  forall s e, parse s = Raise e -> exists msg, e = ValueError msg.

(** [m] never ends in one of the exceptions above (it returns, or
    input ends). *)
Definition never_raises {A : Type} (m : firingrange.IO A) : Prop :=
  forall c e c', m c <> (firingrange.Raised e, c').

(** Whatever exception [m] ends in satisfies [P]. *)
Definition raises_only {A : Type} (m : firingrange.IO A) (P : exn -> Prop) : Prop :=
  forall c e c', m c = (firingrange.Raised e, c') -> P e.

(** Whatever [m] returns satisfies [P]. *)
Definition returns_only {A : Type} (m : firingrange.IO A) (P : A -> Prop) : Prop :=
  forall c a c', m c = (firingrange.Returned a, c') -> P a.

(** When [m] returns it has read at least [n] lines, and what is left
    of the input is what followed them. *)
Definition reads_at_least {A : Type} (m : firingrange.IO A) (n : nat) : Prop :=
  forall c a c',
    m c = (firingrange.Returned a, c') ->
    exists used,
      firingrange.stdin c = (used ++ firingrange.stdin c')%list /\
      (n <= List.length used)%nat.

(** [2^n] as a rational, for a natural [n]. *)
Definition pow2 (n : Z) : Q := inject_Z (2 ^ n).


(** The UTF-8 bytes of U+212A KELVIN SIGN and of U+0130 LATIN CAPITAL
    LETTER I WITH DOT ABOVE, the two characters outside ASCII whose
    lower case has an ASCII character in it. *)
Definition kelvin_sign : string := String "226" (String "132" (String "170" "")).

Definition capital_I_dot : string := String "196" (String "176" "").

(** [n] is an [int] that has a [float]. *)
Definition converts (n : Z) : Prop := (Z.abs n < float_int_limit)%Z.

(** The multipliers of the Activity Table, in table order. *)
Definition multipliers : list float := [1.2; 1.375; 1.55; 1.725; 1.9].

(** The keys of the Activity Table of the text front end. *)
Definition activity_keys : list string :=
  ["sedentary"; "light"; "moderate"; "very"; "athlete"].

(** [violated age weight height w_unit h_unit msg]: the message [msg]
    names a bound that the parsed inputs violate. *)
Inductive violated (age : Z) (weight height : float) (w_unit h_unit : string)
  : string -> Prop :=
| violated_age :
    ~ (14 <= age <= 90)%Z ->
    violated age weight height w_unit h_unit "Age must be between 14 and 90."
| violated_kg :
    w_unit = "kg" -> ~ (30 <= weight <= 300) ->
    violated age weight height w_unit h_unit "Weight in kg must be between 30 and 300."
| violated_lb :
    w_unit = "lb" -> ~ (66 <= weight <= 660) ->
    violated age weight height w_unit h_unit "Weight in lb must be between 66 and 660."
| violated_cm :
    h_unit = "cm" -> ~ (120 <= height <= 220) ->
    violated age weight height w_unit h_unit "Height in cm must be between 120 and 220."
| violated_in :
    h_unit = "in" -> ~ (47 <= height <= 87) ->
    violated age weight height w_unit h_unit "Height in inches must be between 47 and 87.".

(** What the validator of the windowed front end is meant to accept. *)
Definition in_range (age : Z) (weight height : float) (w_unit h_unit : string) : Prop :=
  (14 <= age <= 90)%Z /\
  (w_unit = "kg" -> 30 <= weight <= 300) /\
  (w_unit = "lb" -> 66 <= weight <= 660) /\
  (h_unit = "cm" -> 120 <= height <= 220) /\
  (h_unit = "in" -> 47 <= height <= 87).

(** The defaults of the form. *)
Definition defaults : tdee_gui.TDEEApp :=
  {| tdee_gui.sex_var := "m";
     tdee_gui.age_var := "";
     tdee_gui.weight_var := "";
     tdee_gui.weight_unit_var := "kg";
     tdee_gui.height_var := "";
     tdee_gui.height_unit_var := "cm";
     tdee_gui.activity_var := "Light (1–3 days/wk)";
     tdee_gui.bmr_label := "BMR (kcal/day): " ++ tdee_gui.placeholder;
     tdee_gui.tdee_label := "TDEE (kcal/day): " ++ tdee_gui.placeholder;
     tdee_gui.ref_label := "Reference: " ++ tdee_gui.placeholder |}.

(* ================================================================== *)
(** * Strings *)
(* ================================================================== *)

Section Lower.

Lemma lower_ascii_fixed (c : ascii) :
  lower_ascii (lower_ascii c) = lower_ascii c.
Proof.
  destruct c as [[] [] [] [] [] [] [] []]; reflexivity.
Qed.

(** A character lowers to the lower-case letter [l] exactly when it is
    [l] or its capital [u]. *)
Lemma lower_ascii_letter (l u c : ascii) :
  (forall x, Ascii.eqb (lower_ascii x) l = Ascii.eqb x l || Ascii.eqb x u) ->
  lower_ascii c = l <-> c = l \/ c = u.
Proof.
  intros Hall. rewrite <- !Ascii.eqb_eq, Hall, orb_true_iff. tauto.
Qed.

Lemma lower_ascii_m (c : ascii) : lower_ascii c = "m"%char <-> c = "m"%char \/ c = "M"%char.
Proof.
  apply lower_ascii_letter. intros [[] [] [] [] [] [] [] []]; reflexivity.
Qed.

Lemma lower_ascii_f (c : ascii) : lower_ascii c = "f"%char <-> c = "f"%char \/ c = "F"%char.
Proof.
  apply lower_ascii_letter. intros [[] [] [] [] [] [] [] []]; reflexivity.
Qed.

Lemma lower_ascii_k (c : ascii) : lower_ascii c = "k"%char <-> c = "k"%char \/ c = "K"%char.
Proof.
  apply lower_ascii_letter. intros [[] [] [] [] [] [] [] []]; reflexivity.
Qed.

Lemma lower_ascii_c (c : ascii) : lower_ascii c = "c"%char <-> c = "c"%char \/ c = "C"%char.
Proof.
  apply lower_ascii_letter. intros [[] [] [] [] [] [] [] []]; reflexivity.
Qed.

Lemma lower_ascii_g (c : ascii) : lower_ascii c = "g"%char <-> c = "g"%char \/ c = "G"%char.
Proof.
  apply lower_ascii_letter. intros [[] [] [] [] [] [] [] []]; reflexivity.
Qed.

(** The three ways [lower] treats the head of a string. *)
Lemma lower_head (c : ascii) (s : string) :
  (exists s', String c s = kelvin_sign ++ s' /\
     lower (String c s) = String "k" (lower s')) \/
  (exists s', String c s = capital_I_dot ++ s' /\
     lower (String c s) = String "i" (String "204" (String "135" (lower s')))) \/
  lower (String c s) = String (lower_ascii c) (lower s).
Proof.
  destruct c as [[] [] [] [] [] [] [] []];
    try (right; right; reflexivity);
    (destruct s as [|d s]; [right; right; reflexivity|]);
    destruct d as [[] [] [] [] [] [] [] []];
    try (right; right; reflexivity);
    try (right; left; exists s; split; reflexivity).
  destruct s as [|e s]; [right; right; reflexivity|].
  destruct e as [[] [] [] [] [] [] [] []];
    try (right; right; reflexivity).
  left. now exists s.
Qed.

(** ASCII text lowers to ASCII text. *)
Lemma lower_ascii_isascii (c : ascii) :
  (nat_of_ascii c <? 128)%nat = true ->
  (nat_of_ascii (lower_ascii c) <? 128)%nat = true.
Proof.
  destruct c as [[] [] [] [] [] [] [] []]; intros H; try discriminate H; reflexivity.
Qed.

Lemma lower_isascii (s : string) : isascii s = true -> isascii (lower s) = true.
Proof.
  induction s as [|c s IH]; [reflexivity|].
  cbn [isascii]. rewrite andb_true_iff. intros [Hc Hs].
  destruct (lower_head c s) as [(s' & Es & _) | [(s' & Es & _) | E]].
  - injection Es as -> _. discriminate Hc.
  - injection Es as -> _. discriminate Hc.
  - rewrite E. cbn [isascii]. rewrite (lower_ascii_isascii c Hc). now apply IH.
Qed.

Lemma lower_empty (s : string) : lower s = "" <-> s = "".
Proof.
  split; [|now intros ->].
  destruct s as [|c s]; [reflexivity|].
  destruct (lower_head c s) as [(s' & _ & E) | [(s' & _ & E) | E]];
    rewrite E; discriminate.
Qed.

(** A string lowers to a text that begins with [l] when it begins with
    a character that lowers to [l], or with the Kelvin sign when [l] is
    ["k"], or with the dotted capital I when [l] is ["i"]. *)
Lemma lower_cons (s : string) (l : ascii) (t : string) :
  lower s = String l t ->
  (exists c s', s = String c s' /\ lower_ascii c = l /\ lower s' = t) \/
  (exists s', s = kelvin_sign ++ s' /\ l = "k"%char /\ lower s' = t) \/
  (exists s', s = capital_I_dot ++ s' /\ l = "i"%char /\
     String "204" (String "135" (lower s')) = t).
Proof.
  destruct s as [|c s]; [discriminate|].
  destruct (lower_head c s) as [(s' & Es & E) | [(s' & Es & E) | E]];
    rewrite E; intros [= <- <-].
  - right; left. now exists s'.
  - right; right. now exists s'.
  - left. now exists c, s.
Qed.

(** A string lowers to the one ASCII letter [l], not ["k"] or ["i"],
    exactly when it is one character that lowers to [l]. *)
Lemma lower_single (s : string) (l : ascii) :
  l <> "k"%char -> l <> "i"%char ->
  lower s = String l "" ->
  exists c, s = String c "" /\ lower_ascii c = l.
Proof.
  intros Hk Hi H.
  apply lower_cons in H
    as [(c & s' & -> & Hc & Hs) | [(s' & _ & -> & _) | (s' & _ & -> & _)]];
    try congruence.
  apply lower_empty in Hs as ->. now exists c.
Qed.

Lemma lower_m (s : string) : lower s = "m" <-> s = "m" \/ s = "M".
Proof.
  split.
  - intros H. apply lower_single in H as (c & -> & Hc); try discriminate.
    apply lower_ascii_m in Hc as [-> | ->]; auto.
  - intros [-> | ->]; reflexivity.
Qed.

Lemma lower_f (s : string) : lower s = "f" <-> s = "f" \/ s = "F".
Proof.
  split.
  - intros H. apply lower_single in H as (c & -> & Hc); try discriminate.
    apply lower_ascii_f in Hc as [-> | ->]; auto.
  - intros [-> | ->]; reflexivity.
Qed.

(** The spellings of a unit that lower to ["kg"]: the four casings, and
    the two that begin with the Kelvin sign. *)
Lemma lower_kg (s : string) :
  lower s = "kg" <->
  s = "kg" \/ s = "kG" \/ s = "Kg" \/ s = "KG" \/
  s = kelvin_sign ++ "g" \/ s = kelvin_sign ++ "G".
Proof.
  split.
  - intros H.
    apply lower_cons in H
      as [(c & s' & -> & Hc & Hs) | [(s' & -> & _ & Hs) | (s' & _ & [=] & _)]];
      apply lower_single in Hs as (d & -> & Hd); try discriminate;
      apply lower_ascii_g in Hd as [-> | ->];
      try (apply lower_ascii_k in Hc as [-> | ->]); auto 10.
  - intros [-> | [-> | [-> | [-> | [-> | ->]]]]]; reflexivity.
Qed.

(** The spellings of a unit that lower to ["cm"]: the four casings. *)
Lemma lower_cm (s : string) :
  lower s = "cm" <-> s = "cm" \/ s = "cM" \/ s = "Cm" \/ s = "CM".
Proof.
  split.
  - intros H.
    apply lower_cons in H
      as [(c & s' & -> & Hc & Hs) | [(s' & _ & [=] & _) | (s' & _ & [=] & _)]].
    apply lower_single in Hs as (d & -> & Hd); try discriminate.
    apply lower_ascii_m in Hd as [-> | ->];
      apply lower_ascii_c in Hc as [-> | ->]; auto.
  - intros [-> | [-> | [-> | ->]]]; reflexivity.
Qed.

End Lower.

(* ================================================================== *)
(** * Dictionaries *)
(* ================================================================== *)

Section Dict.

Context {V : Type}.
Implicit Types (d : dict V) (k : string) (v : V).

Lemma dict_get_In d k v : dict_get d k = Some v -> In (k, v) d.
Proof.
  induction d as [|[k' v'] d IH]; simpl; [discriminate|].
  destruct (String.eqb_spec k k') as [->|Hne].
  - intros [= ->]. now left.
  - intros H. right. now apply IH.
Qed.

Lemma dict_get_None d k : dict_get d k = None <-> ~ In k (dict_keys d).
Proof.
  induction d as [|[k' v'] d IH]; simpl.
  - tauto.
  - destruct (String.eqb_spec k k') as [->|Hne].
    + split; [discriminate | intros H; exfalso; apply H; now left].
    + rewrite IH. split; [intros H [E|HI]; [congruence | tauto] | tauto].
Qed.

Lemma In_dict_get d k v :
  NoDup (dict_keys d) -> In (k, v) d -> dict_get d k = Some v.
Proof.
  induction d as [|[k' v'] d IH]; simpl; [tauto|].
  intros Hnd [E|HI].
  - injection E as -> ->. now rewrite String.eqb_refl.
  - inversion Hnd as [|? ? Hnot Hnd']; subst.
    destruct (String.eqb_spec k k') as [->|Hne].
    + exfalso. apply Hnot. change k' with (fst (k', v)). now apply in_map.
    + now apply IH.
Qed.

Lemma dict_contains_true d k : dict_contains k d = true <-> In k (dict_keys d).
Proof.
  unfold dict_contains. destruct (dict_get d k) eqn:E.
  - split; [intros _ | reflexivity].
    apply dict_get_In in E. change k with (fst (k, v)). now apply in_map.
  - apply dict_get_None in E. split; [discriminate | tauto].
Qed.

End Dict.

(* ================================================================== *)
(** * The core: conversions, formulas, activity table *)
(* ================================================================== *)

Lemma result_eq_refl (m : result float) : m ~= m.
Proof. destruct m; simpl; reflexivity. Qed.

Lemma truediv_nonzero (a b : float) : ~ b == 0 -> a /! b = Ok (a / b).
Proof.
  intros Hb. unfold truediv. destruct (Qeq_bool b 0) eqn:E; [|reflexivity].
  now apply Qeq_bool_eq in E.
Qed.

Lemma kg_to_lbs_returns (kg : float) :
  firingrange.kg_to_lbs kg = Ok (kg / 0.45359237).
Proof. reflexivity. Qed.

Lemma cm_to_inches_returns (cm : float) :
  firingrange.cm_to_inches cm = Ok (cm / 2.54).
Proof. reflexivity. Qed.

(** The windowed front end carries its own copy of the core; the copies
    are the same functions. *)
Lemma gui_core_same :
  tdee_gui.lbs_to_kg = firingrange.lbs_to_kg /\
  tdee_gui.kg_to_lbs = firingrange.kg_to_lbs /\
  tdee_gui.inches_to_cm = firingrange.inches_to_cm /\
  tdee_gui.cm_to_inches = firingrange.cm_to_inches /\
  tdee_gui.bmr_mifflin_st_jeor = firingrange.bmr_mifflin_st_jeor.
Proof. repeat split. Qed.

(** An age in years that the validator would let through converts; so
    does anything below 2^64. *)
Lemma float_int_limit_large : (2 ^ 64 < float_int_limit)%Z.
Proof. reflexivity. Qed.

Lemma of_int_converts (n : Z) : converts n -> of_int n = Ok (inject_Z n).
Proof.
  unfold converts, of_int. intros H.
  destruct (Z.leb_spec float_int_limit (Z.abs n)); [lia | reflexivity].
Qed.

Lemma of_int_overflow (n : Z) :
  ~ converts n -> of_int n = Raise (OverflowError "int too large to convert to float").
Proof.
  unfold converts, of_int. intros H.
  destruct (Z.leb_spec float_int_limit (Z.abs n)); [reflexivity | lia].
Qed.

Lemma converts_dec (n : Z) : converts n \/ ~ converts n.
Proof. unfold converts. lia. Qed.

Lemma converts_small (n : Z) : (Z.abs n < 2 ^ 64)%Z -> converts n.
Proof.
  unfold converts. pose proof float_int_limit_large. lia.
Qed.

(** The ways through [bmr_mifflin_st_jeor], by the lowered code; with a
    recognized code the age term is still to be converted. *)
Lemma bmr_steps (sex : string) (w h : float) (a : Z) :
  (lower sex = "m" /\
   firingrange.bmr_mifflin_st_jeor sex w h a =
     (t <- of_int (5 * a) ;; Ok (10 * w + 6.25 * h - t + 5))) \/
  (lower sex = "f" /\
   firingrange.bmr_mifflin_st_jeor sex w h a =
     (t <- of_int (5 * a) ;; Ok (10 * w + 6.25 * h - t - 161))) \/
  (lower sex <> "m" /\ lower sex <> "f" /\
   firingrange.bmr_mifflin_st_jeor sex w h a = Raise (ValueError "sex must be 'm' or 'f'")).
Proof.
  unfold firingrange.bmr_mifflin_st_jeor, in_tuple; simpl.
  destruct (String.eqb_spec (lower sex) "m") as [Em|Nm]; simpl.
  - left. now split.
  - destruct (String.eqb_spec (lower sex) "f") as [Ef|Nf]; simpl.
    + right; left. now split.
    + right; right. now repeat split.
Qed.

(** The three ways through it when the age term converts. *)
Lemma bmr_cases (sex : string) (w h : float) (a : Z) :
  converts (5 * a) ->
  let base := 10 * w + 6.25 * h - inject_Z (5 * a) in
  (lower sex = "m" /\
   firingrange.bmr_mifflin_st_jeor sex w h a = Ok (base + 5)) \/
  (lower sex = "f" /\
   firingrange.bmr_mifflin_st_jeor sex w h a = Ok (base - 161)) \/
  (lower sex <> "m" /\ lower sex <> "f" /\
   firingrange.bmr_mifflin_st_jeor sex w h a = Raise (ValueError "sex must be 'm' or 'f'")).
Proof.
  intros Ha base.
  destruct (bmr_steps sex w h a) as [[Hm E] | [[Hf E] | H]];
    [left | right; left | right; right; exact H];
    (split; [assumption|]); rewrite E, (of_int_converts _ Ha); reflexivity.
Qed.

(** With a recognized code and an age term that does not convert, the
    conversion raises. *)
Lemma bmr_overflow (sex : string) (w h : float) (a : Z) :
  lower sex = "m" \/ lower sex = "f" -> ~ converts (5 * a) ->
  firingrange.bmr_mifflin_st_jeor sex w h a =
    Raise (OverflowError "int too large to convert to float").
Proof.
  intros Hs Ha.
  destruct (bmr_steps sex w h a) as [[Hm E] | [[Hf E] | (Nm & Nf & _)]];
    [| |tauto]; rewrite E, (of_int_overflow _ Ha); reflexivity.
Qed.

Lemma base_int_term (w h : float) (a : Z) :
  10 * w + 6.25 * h - inject_Z (5 * a) == 10 * w + 6.25 * h - 5 * inject_Z a.
Proof.
  rewrite inject_Z_mult. reflexivity.
Qed.

(** C1, as stated, fails at an age too large for a float: with the age
    10^309 the function raises OverflowError and returns no value. *)
Lemma bmr_formula_needs_age_bound :
  firingrange.bmr_mifflin_st_jeor "m" 70 175 (10 ^ 309) =
    Raise (OverflowError "int too large to convert to float") /\
  ~ (firingrange.bmr_mifflin_st_jeor "m" 70 175 (10 ^ 309)
       ~= Ok (10 * 70 + 6.25 * 175 - 5 * inject_Z (10 ^ 309) + 5)).
Proof.
  assert (E : firingrange.bmr_mifflin_st_jeor "m" 70 175 (10 ^ 309) =
              Raise (OverflowError "int too large to convert to float")).
  { apply bmr_overflow; [left; reflexivity|].
    unfold converts. vm_compute. discriminate. }
  split; [exact E|]. rewrite E. simpl. tauto.
Qed.

(** C1, amended. For every weight and height, and every age whose
    fivefold is an integer that converts to a float (its magnitude is
    below 2^1024 - 2^970), [bmr_mifflin_st_jeor] computes
    base = 10*weight_kg + 6.25*height_cm - 5*age_years and returns
    base + 5 when the sex code is 'm' in either case and base - 161 when
    it is 'f' in either case; with such a code and an age beyond that
    bound it raises OverflowError; bmr("m", 70, 175, 25) is 1673.75 and
    bmr("f", 60, 165, 30) is 1320.25. *)
Theorem bmr_mifflin_st_jeor_formula
  (sex : string) (weight_kg height_cm : float) (age_years : Z) :
  let base := 10 * weight_kg + 6.25 * height_cm - 5 * inject_Z age_years in
  (converts (5 * age_years) -> sex = "m" \/ sex = "M" ->
   firingrange.bmr_mifflin_st_jeor sex weight_kg height_cm age_years ~= Ok (base + 5)) /\
  (converts (5 * age_years) -> sex = "f" \/ sex = "F" ->
   firingrange.bmr_mifflin_st_jeor sex weight_kg height_cm age_years ~= Ok (base - 161)) /\
  (~ converts (5 * age_years) -> In sex ["m"; "M"; "f"; "F"] ->
   firingrange.bmr_mifflin_st_jeor sex weight_kg height_cm age_years =
     Raise (OverflowError "int too large to convert to float")) /\
  (converts (5 * age_years) <-> (Z.abs (5 * age_years) < 2 ^ 1024 - 2 ^ 970)%Z) /\
  firingrange.bmr_mifflin_st_jeor "m" 70 175 25 ~= Ok 1673.75 /\
  firingrange.bmr_mifflin_st_jeor "f" 60 165 30 ~= Ok 1320.25.
Proof.
  intros base. split; [|split; [|split; [|split; [|split]]]].
  - intros Ha Hs. apply lower_m in Hs.
    destruct (bmr_cases sex weight_kg height_cm age_years Ha)
      as [[_ ->] | [[Hf _] | [Hm _]]]; try congruence.
    unfold result_eq, base. now rewrite base_int_term.
  - intros Ha Hs. apply lower_f in Hs.
    destruct (bmr_cases sex weight_kg height_cm age_years Ha)
      as [[Hm _] | [[_ ->] | [_ [Hf _]]]]; try congruence.
    unfold result_eq, base. now rewrite base_int_term.
  - intros Ha Hs. apply bmr_overflow; [|exact Ha].
    rewrite lower_m, lower_f. simpl in Hs. intuition congruence.
  - reflexivity.
  - vm_compute. reflexivity.
  - vm_compute. reflexivity.
Qed.

Lemma bmr_mifflin_st_jeor_formula_witness :
  firingrange.bmr_mifflin_st_jeor "M" 80 180 40
    ~= Ok (10 * 80 + 6.25 * 180 - 5 * inject_Z 40 + 5) /\
  firingrange.bmr_mifflin_st_jeor "F" 55 160 35
    ~= Ok (10 * 55 + 6.25 * 160 - 5 * inject_Z 35 - 161) /\
  firingrange.bmr_mifflin_st_jeor "f" 55 160 (2 ^ 1022) =
    Raise (OverflowError "int too large to convert to float").
Proof.
  split; [|split].
  - apply (proj1 (bmr_mifflin_st_jeor_formula "M" 80 180 40)).
    + apply converts_small. vm_compute. reflexivity.
    + right. reflexivity.
  - apply (proj1 (proj2 (bmr_mifflin_st_jeor_formula "F" 55 160 35))).
    + apply converts_small. vm_compute. reflexivity.
    + right. reflexivity.
  - apply (proj1 (proj2 (proj2 (bmr_mifflin_st_jeor_formula "f" 55 160 (2 ^ 1022))))).
    + unfold converts. vm_compute. discriminate.
    + simpl. tauto.
Defined.

Lemma cli_keys : dict_keys firingrange.ACTIVITY_FACTORS = activity_keys.
Proof. reflexivity. Qed.

Lemma cli_keys_NoDup : NoDup (dict_keys firingrange.ACTIVITY_FACTORS).
Proof.
  rewrite cli_keys. unfold activity_keys.
  repeat (constructor; [simpl; intuition discriminate|]). constructor.
Qed.

(** C2. [tdee_from_bmr] lowers the key, looks it up in the Activity
    Table and returns bmr times the multiplier found (so
    tdee(1673.75, "sedentary") is 2008.5); when the lowered key is not in
    the table it raises a ValueError whose message lists the five keys;
    it returns a value exactly when the lowered key is one of the five. *)
Theorem tdee_from_bmr_lookup (bmr : float) (activity_key : string) :
  (forall factor,
      In (lower activity_key, factor) firingrange.ACTIVITY_FACTORS ->
      firingrange.tdee_from_bmr bmr activity_key = Ok (bmr * factor)) /\
  (~ In (lower activity_key) activity_keys ->
   firingrange.tdee_from_bmr bmr activity_key =
     Raise (ValueError "activity must be one of: sedentary, light, moderate, very, athlete")) /\
  (returns (firingrange.tdee_from_bmr bmr activity_key) <->
   In (lower activity_key) activity_keys) /\
  firingrange.tdee_from_bmr 1673.75 "sedentary" ~= Ok 2008.5 /\
  firingrange.tdee_from_bmr 1673.75 "Sedentary" ~= Ok 2008.5 /\
  firingrange.tdee_from_bmr bmr "unknown_key" =
    Raise (ValueError "activity must be one of: sedentary, light, moderate, very, athlete").
Proof.
  assert (Hin : forall factor,
             In (lower activity_key, factor) firingrange.ACTIVITY_FACTORS ->
             firingrange.tdee_from_bmr bmr activity_key = Ok (bmr * factor)).
  { intros factor HIn. apply (In_dict_get _ _ _ cli_keys_NoDup) in HIn.
    unfold firingrange.tdee_from_bmr, dict_contains, dict_getitem.
    now rewrite HIn. }
  assert (Hout : ~ In (lower activity_key) activity_keys ->
                 firingrange.tdee_from_bmr bmr activity_key =
                 Raise (ValueError
                   "activity must be one of: sedentary, light, moderate, very, athlete")).
  { intros Hnot. rewrite <- cli_keys in Hnot. apply dict_get_None in Hnot.
    unfold firingrange.tdee_from_bmr, dict_contains. now rewrite Hnot. }
  split; [exact Hin|]. split; [exact Hout|]. split; [|split; [|split]].
  - split.
    + intros [r Hr]. destruct (in_dec string_dec (lower activity_key) activity_keys)
        as [HIn|Hnot]; [exact HIn|].
      rewrite (Hout Hnot) in Hr. discriminate.
    + intros HIn. rewrite <- cli_keys in HIn. apply dict_contains_true in HIn.
      unfold dict_contains in HIn.
      destruct (dict_get firingrange.ACTIVITY_FACTORS (lower activity_key))
        as [factor|] eqn:E; [|discriminate].
      exists (bmr * factor). apply Hin. now apply dict_get_In.
  - vm_compute. reflexivity.
  - vm_compute. reflexivity.
  - reflexivity.
Qed.

Lemma tdee_from_bmr_lookup_witness :
  firingrange.tdee_from_bmr 2000 "ATHLETE" = Ok (2000 * 1.9) /\
  firingrange.tdee_from_bmr 2000 "couch" =
    Raise (ValueError "activity must be one of: sedentary, light, moderate, very, athlete").
Proof.
  split.
  - apply (proj1 (tdee_from_bmr_lookup 2000 "ATHLETE") 1.9).
    simpl. right; right; right; right; left. reflexivity.
  - apply (proj1 (proj2 (tdee_from_bmr_lookup 2000 "couch"))).
    simpl. intuition discriminate.
Defined.

Lemma sex_codes (sex : string) :
  In sex ["m"; "M"; "f"; "F"] <-> lower sex = "m" \/ lower sex = "f".
Proof.
  rewrite lower_m, lower_f. simpl. intuition congruence.
Qed.

Lemma bmr_raises (sex : string) (w h : float) (a : Z) :
  ~ In sex ["m"; "M"; "f"; "F"] ->
  firingrange.bmr_mifflin_st_jeor sex w h a = Raise (ValueError "sex must be 'm' or 'f'").
Proof.
  rewrite sex_codes. intros Hs.
  destruct (bmr_steps sex w h a) as [[Hm _] | [[Hf _] | (_ & _ & ->)]]; tauto.
Qed.

(** With a recognized code the function returns or raises OverflowError;
    it raises no ValueError. *)
Lemma bmr_recognized (sex : string) (w h : float) (a : Z) :
  In sex ["m"; "M"; "f"; "F"] ->
  returns (firingrange.bmr_mifflin_st_jeor sex w h a) \/
  firingrange.bmr_mifflin_st_jeor sex w h a =
    Raise (OverflowError "int too large to convert to float").
Proof.
  rewrite sex_codes. intros Hs.
  destruct (converts_dec (5 * a)) as [Ha|Ha].
  - left. destruct (bmr_cases sex w h a Ha) as [[_ ->] | [[_ ->] | (Nm & Nf & _)]];
      [eexists; reflexivity | eexists; reflexivity | tauto].
  - right. now apply bmr_overflow.
Qed.

(** C3. [bmr_mifflin_st_jeor], in both programs, raises a ValueError
    exactly when the sex code is none of 'm', 'M', 'f', 'F', that is when
    the lowered code is neither 'm' nor 'f'; the ValueError is the one
    for the sex code, whatever the other arguments; "x" and "X" are
    rejected. *)
Theorem bmr_rejects_unknown_sex
  (sex : string) (weight_kg height_cm : float) (age_years : Z) :
  let msg := "sex must be 'm' or 'f'" in
  ((exists m, firingrange.bmr_mifflin_st_jeor sex weight_kg height_cm age_years
              = Raise (ValueError m))
   <-> ~ In sex ["m"; "M"; "f"; "F"]) /\
  (forall m, firingrange.bmr_mifflin_st_jeor sex weight_kg height_cm age_years
             = Raise (ValueError m) -> m = msg) /\
  ((exists m, tdee_gui.bmr_mifflin_st_jeor sex weight_kg height_cm age_years
              = Raise (ValueError m))
   <-> ~ In sex ["m"; "M"; "f"; "F"]) /\
  (forall m, tdee_gui.bmr_mifflin_st_jeor sex weight_kg height_cm age_years
             = Raise (ValueError m) -> m = msg) /\
  (In sex ["m"; "M"; "f"; "F"] <-> lower sex = "m" \/ lower sex = "f") /\
  firingrange.bmr_mifflin_st_jeor "x" 70 175 25 = Raise (ValueError msg) /\
  firingrange.bmr_mifflin_st_jeor "X" 70 175 25 = Raise (ValueError msg).
Proof.
  intros msg.
  pose proof (sex_codes sex) as Hcodes.
  assert (Hiff : (exists m, firingrange.bmr_mifflin_st_jeor sex weight_kg height_cm age_years
                            = Raise (ValueError m)) <-> ~ In sex ["m"; "M"; "f"; "F"]).
  { split.
    - intros [m Hm] Hin.
      destruct (bmr_recognized sex weight_kg height_cm age_years Hin) as [[r Hr] | Ho];
        congruence.
    - intros Hs. exists msg. now apply bmr_raises. }
  assert (Hexn : forall m,
             firingrange.bmr_mifflin_st_jeor sex weight_kg height_cm age_years
             = Raise (ValueError m) -> m = msg).
  { intros m Hm.
    assert (Hs : ~ In sex ["m"; "M"; "f"; "F"]) by (apply Hiff; now exists m).
    rewrite (bmr_raises _ weight_kg height_cm age_years Hs) in Hm.
    now injection Hm as <-. }
  destruct gui_core_same as (_ & _ & _ & _ & ->).
  repeat split; try exact Hexn; try apply Hiff; try apply Hcodes.
Qed.

Lemma bmr_rejects_unknown_sex_witness :
  (exists m, firingrange.bmr_mifflin_st_jeor "male" 70 175 25 = Raise (ValueError m)) /\
  (exists m, tdee_gui.bmr_mifflin_st_jeor "" 70 175 25 = Raise (ValueError m)).
Proof.
  split.
  - apply (proj1 (bmr_rejects_unknown_sex "male" 70 175 25)). simpl. intuition discriminate.
  - apply (proj1 (proj2 (proj2 (bmr_rejects_unknown_sex "" 70 175 25)))).
    simpl. intuition discriminate.
Defined.

(** ** The round trip in binary64 arithmetic *)

Section Binary64Arithmetic.

Local Open Scope Z_scope.

Lemma digits2_pos_size (p : positive) : digits2_pos p = Pos.size p.
Proof. induction p; simpl; congruence. Qed.




Lemma iter_nat_comm {A} (f : A -> A) (n : nat) (x : A) :
  Nat.iter n f (f x) = f (Nat.iter n f x).
Proof. induction n; simpl; congruence. Qed.


Local Open Scope Q_scope.














Lemma pow2_add (a b : Z) : (0 <= a)%Z -> (0 <= b)%Z -> pow2 (a + b) == pow2 a * pow2 b.
Proof.
  intros Ha Hb. unfold pow2. now rewrite Z.pow_add_r, inject_Z_mult by lia.
Qed.



















(** The literals are binary64 numbers, each within half a unit in the
    last place of the decimal it is written as. *)
Lemma literals_nearest :
  binary64.is_float binary64.lit_0_45359237 = true /\
  Qabs (binary64.value binary64.lit_0_45359237 - 0.45359237) <= (1 # 2) * 2 ^ (-54) /\
  binary64.is_float binary64.lit_2_54 = true /\
  Qabs (binary64.value binary64.lit_2_54 - 2.54) <= (1 # 2) * 2 ^ (-51) /\
  binary64.is_float binary64.lit_1e308 = true /\
  Qabs (binary64.value binary64.lit_1e308 - 1e308) <= (1 # 2) * 2 ^ 971 /\
  binary64.is_float binary64.lit_154_3 = true /\
  Qabs (binary64.value binary64.lit_154_3 - 154.3) <= (1 # 2) * 2 ^ (-45) /\
  binary64.is_float binary64.lit_68_9 = true /\
  Qabs (binary64.value binary64.lit_68_9 - 68.9) <= (1 # 2) * 2 ^ (-46) /\
  binary64.is_float binary64.least_positive = true /\
  binary64.value binary64.least_positive == 2 ^ (-1074).
Proof.
  repeat split; vm_compute; congruence.
Qed.


End Binary64Arithmetic.




(** C5. The four conversions return for every input, with no error:
    lb to kg multiplies by 0.45359237, kg to lb multiplies by
    1/0.45359237, in to cm multiplies by 2.54, cm to in divides by
    2.54. *)
Theorem conversions_total (x : float) :
  firingrange.lbs_to_kg x == x * 0.45359237 /\
  firingrange.kg_to_lbs x ~= Ok (x * (1 / 0.45359237)) /\
  firingrange.inches_to_cm x == x * 2.54 /\
  firingrange.cm_to_inches x ~= Ok (x / 2.54) /\
  returns (firingrange.kg_to_lbs x) /\
  returns (firingrange.cm_to_inches x).
Proof.
  split; [reflexivity|]. split; [|split; [reflexivity|split; [|split]]].
  - rewrite kg_to_lbs_returns. unfold result_eq. field.
  - rewrite cm_to_inches_returns. apply result_eq_refl.
  - eexists. apply kg_to_lbs_returns.
  - eexists. apply cm_to_inches_returns.
Qed.

(** C6. In both front ends the Activity Table has exactly five entries,
    with distinct keys, whose multipliers in table order are 1.2, 1.375,
    1.55, 1.725, 1.9: strictly increasing, each at least 1.0, and the
    same in the two tables. *)
Theorem activity_tables :
  List.length firingrange.ACTIVITY_FACTORS = 5%nat /\
  List.length tdee_gui.ACTIVITY_FACTORS = 5%nat /\
  NoDup (dict_keys firingrange.ACTIVITY_FACTORS) /\
  NoDup (dict_keys tdee_gui.ACTIVITY_FACTORS) /\
  dict_values firingrange.ACTIVITY_FACTORS = multipliers /\
  dict_values tdee_gui.ACTIVITY_FACTORS = multipliers /\
  dict_values tdee_gui.ACTIVITY_FACTORS = dict_values firingrange.ACTIVITY_FACTORS /\
  StronglySorted Qlt multipliers /\
  Forall (fun m => 1.0 <= m) multipliers.
Proof.
  split; [reflexivity|]. split; [reflexivity|]. split; [exact cli_keys_NoDup|].
  split.
  { unfold tdee_gui.ACTIVITY_FACTORS, dict_keys; simpl.
    repeat (constructor; [simpl; intuition discriminate|]). constructor. }
  split; [reflexivity|]. split; [reflexivity|]. split; [reflexivity|].
  unfold multipliers. split.
  - repeat (constructor; [|repeat (constructor; [reflexivity|]); constructor]).
    constructor.
  - repeat (constructor; [discriminate|]). constructor.
Qed.

(* ================================================================== *)
(** * The two Person classes *)
(* ================================================================== *)

Lemma lbs_to_kg_changes (w : float) : ~ w == 0 -> ~ firingrange.lbs_to_kg w == w.
Proof.
  unfold firingrange.lbs_to_kg. intros Hw E. apply Hw.
  assert (E' : w * (1 - 0.45359237) == 0).
  { setoid_replace (w * (1 - 0.45359237)) with (w - w * 0.45359237) by ring.
    rewrite E. ring. }
  apply Qmult_integral in E' as [E'|E']; [exact E'|]. discriminate E'.
Qed.

(** C10. [weight_kg] returns the stored weight when the unit is "kg" and
    one application of [lbs_to_kg] to it otherwise, and [height_cm]
    likewise with "cm" and [inches_to_cm]; a unit that is neither
    recognized value takes the imperial branch, with no error.  The text
    front end lowers the unit before the test (so "kg", "kG", "Kg", "KG"
    and the two spellings with the Kelvin sign for the k, and no other,
    count as kg; "cm", "cM", "Cm", "CM", and no other, as cm), the
    windowed front end does not, so that on the unit "KG" the two
    disagree. *)
Theorem person_normalization (p : firingrange.Person) (q : tdee_gui.Person) :
  (lower (firingrange.weight_unit p) = "kg" ->
   firingrange.weight_kg p = firingrange.weight p) /\
  (lower (firingrange.weight_unit p) <> "kg" ->
   firingrange.weight_kg p = firingrange.lbs_to_kg (firingrange.weight p)) /\
  (lower (firingrange.height_unit p) = "cm" ->
   firingrange.height_cm p = firingrange.height p) /\
  (lower (firingrange.height_unit p) <> "cm" ->
   firingrange.height_cm p = firingrange.inches_to_cm (firingrange.height p)) /\
  (tdee_gui.weight_unit q = "kg" -> tdee_gui.weight_kg q = tdee_gui.weight q) /\
  (tdee_gui.weight_unit q <> "kg" ->
   tdee_gui.weight_kg q = tdee_gui.lbs_to_kg (tdee_gui.weight q)) /\
  (tdee_gui.height_unit q = "cm" -> tdee_gui.height_cm q = tdee_gui.height q) /\
  (tdee_gui.height_unit q <> "cm" ->
   tdee_gui.height_cm q = tdee_gui.inches_to_cm (tdee_gui.height q)) /\
  (In (firingrange.weight_unit p)
      ["kg"; "kG"; "Kg"; "KG"; kelvin_sign ++ "g"; kelvin_sign ++ "G"] ->
   firingrange.weight_kg p = firingrange.weight p) /\
  (lower (firingrange.weight_unit p) = "kg" <->
   In (firingrange.weight_unit p)
      ["kg"; "kG"; "Kg"; "KG"; kelvin_sign ++ "g"; kelvin_sign ++ "G"]) /\
  (lower (firingrange.height_unit p) = "cm" <->
   In (firingrange.height_unit p) ["cm"; "cM"; "Cm"; "CM"]) /\
  (firingrange.weight_unit p = "KG" -> tdee_gui.weight_unit q = "KG" ->
   firingrange.weight p = tdee_gui.weight q -> ~ tdee_gui.weight q == 0 ->
   ~ firingrange.weight_kg p == tdee_gui.weight_kg q).
Proof.
  unfold firingrange.weight_kg, firingrange.height_cm,
    tdee_gui.weight_kg, tdee_gui.height_cm.
  repeat match goal with |- _ /\ _ => split end.
  - now intros ->.
  - intros H. apply String.eqb_neq in H. now rewrite H.
  - now intros ->.
  - intros H. apply String.eqb_neq in H. now rewrite H.
  - now intros ->.
  - intros H. apply String.eqb_neq in H. now rewrite H.
  - now intros ->.
  - intros H. apply String.eqb_neq in H. now rewrite H.
  - intros H. assert (E : lower (firingrange.weight_unit p) = "kg").
    { apply lower_kg. cbn [In] in H. intuition congruence. }
    now rewrite E.
  - rewrite lower_kg. cbn [In]. intuition congruence.
  - rewrite lower_cm. cbn [In]. intuition congruence.
  - intros -> -> -> Hw. simpl. intros E. symmetry in E. revert E.
    now apply lbs_to_kg_changes.
Qed.

Lemma person_normalization_witness :
  firingrange.weight_kg (firingrange.mkPerson "m" 25 70 "Kg" 69 "inch" "light") = 70 /\
  firingrange.height_cm (firingrange.mkPerson "m" 25 70 "Kg" 69 "inch" "light")
    = firingrange.inches_to_cm 69 /\
  tdee_gui.weight_kg (tdee_gui.mkPerson "m" 25 154 "stone" 175 "cm" "x")
    = tdee_gui.lbs_to_kg 154 /\
  tdee_gui.height_cm (tdee_gui.mkPerson "m" 25 154 "stone" 175 "cm" "x") = 175 /\
  ~ firingrange.weight_kg (firingrange.mkPerson "m" 25 70 "KG" 175 "cm" "light")
    == tdee_gui.weight_kg (tdee_gui.mkPerson "m" 25 70 "KG" 175 "cm" "x") /\
  firingrange.weight_kg
    (firingrange.mkPerson "m" 25 70 (kelvin_sign ++ "g") 175 "cm" "light") = 70.
Proof.
  pose (p := firingrange.mkPerson "m" 25 70 "Kg" 69 "inch" "light").
  pose (k := firingrange.mkPerson "m" 25 70 (kelvin_sign ++ "g") 175 "cm" "light").
  pose (q := tdee_gui.mkPerson "m" 25 154 "stone" 175 "cm" "x").
  pose (p' := firingrange.mkPerson "m" 25 70 "KG" 175 "cm" "light").
  pose (q' := tdee_gui.mkPerson "m" 25 70 "KG" 175 "cm" "x").
  destruct (person_normalization p q) as (Hw & _ & _ & Hh & _ & Gw & Gh & _).
  destruct (person_normalization p' q') as (_ & _ & _ & _ & _ & _ & _ & _ & _ & _ & _ & Hd).
  split; [apply Hw; reflexivity|].
  split; [apply Hh; discriminate|].
  split; [apply Gw; discriminate|].
  split; [apply Gh; reflexivity|].
  split; [apply Hd; try reflexivity; discriminate|].
  destruct (person_normalization k q) as (_ & _ & _ & _ & _ & _ & _ & _ & Hk & _).
  apply Hk. cbn [In]. auto 6.
Defined.

(* ================================================================== *)
(** * The windowed front end: validator, Compute, Clear *)
(* ================================================================== *)

Lemma age_check (age : Z) :
  ((14 <=? age)%Z && (age <=? 90)%Z = true) <-> (14 <= age <= 90)%Z.
Proof.
  rewrite andb_true_iff, !Z.leb_le. tauto.
Qed.

Lemma range_check (lo hi x : float) :
  (Qle_bool lo x && Qle_bool x hi = true) <-> lo <= x <= hi.
Proof.
  rewrite andb_true_iff, !Qle_bool_iff. tauto.
Qed.

(** One unit-guarded test of the validator fires exactly when the unit
    is the guarded one and the value is out of its range. *)
Lemma unit_check_fires (unit u : string) (lo hi x : float) :
  (String.eqb unit u && negb (Qle_bool lo x && Qle_bool x hi) = true) <->
  unit = u /\ ~ lo <= x <= hi.
Proof.
  rewrite andb_true_iff, negb_true_iff, String.eqb_eq, <- range_check.
  destruct (Qle_bool lo x && Qle_bool x hi); intuition congruence.
Qed.

Lemma unit_check_passes (unit u : string) (lo hi x : float) :
  (String.eqb unit u && negb (Qle_bool lo x && Qle_bool x hi) = false) <->
  (unit = u -> lo <= x <= hi).
Proof.
  rewrite <- not_true_iff_false, unit_check_fires, <- range_check.
  destruct (Qle_bool lo x && Qle_bool x hi); intuition congruence.
Qed.

(** The outcome of the validator: it returns with all five conditions
    met, or raises the ValueError of a violated bound. *)
Lemma validate_outcome (age : Z) (weight height : float) (w_unit h_unit : string) :
  (tdee_gui.validate age weight height w_unit h_unit = Ok tt /\
   in_range age weight height w_unit h_unit) \/
  (exists msg,
      tdee_gui.validate age weight height w_unit h_unit = Raise (ValueError msg) /\
      violated age weight height w_unit h_unit msg).
Proof.
  unfold tdee_gui.validate, in_range.
  destruct ((14 <=? age)%Z && (age <=? 90)%Z) eqn:Ea; cbn [negb].
  2:{ right. eexists. split; [reflexivity|]. apply violated_age.
      rewrite <- age_check. congruence. }
  apply age_check in Ea.
  destruct (String.eqb w_unit "kg" && negb (Qle_bool 30 weight && Qle_bool weight 300))
    eqn:Ekg.
  { right. eexists. split; [reflexivity|].
    apply unit_check_fires in Ekg as [? ?]. now apply violated_kg. }
  rewrite unit_check_passes in Ekg.
  destruct (String.eqb w_unit "lb" && negb (Qle_bool 66 weight && Qle_bool weight 660))
    eqn:Elb.
  { right. eexists. split; [reflexivity|].
    apply unit_check_fires in Elb as [? ?]. now apply violated_lb. }
  rewrite unit_check_passes in Elb.
  destruct (String.eqb h_unit "cm" && negb (Qle_bool 120 height && Qle_bool height 220))
    eqn:Ecm.
  { right. eexists. split; [reflexivity|].
    apply unit_check_fires in Ecm as [? ?]. now apply violated_cm. }
  rewrite unit_check_passes in Ecm.
  destruct (String.eqb h_unit "in" && negb (Qle_bool 47 height && Qle_bool height 87))
    eqn:Ein.
  { right. eexists. split; [reflexivity|].
    apply unit_check_fires in Ein as [? ?]. now apply violated_in. }
  rewrite unit_check_passes in Ein.
  left. tauto.
Qed.

Lemma violated_not_in_range
  (age : Z) (weight height : float) (w_unit h_unit msg : string) :
  violated age weight height w_unit h_unit msg ->
  ~ in_range age weight height w_unit h_unit.
Proof.
  unfold in_range. intros [H | E H | E H | E H | E H]; tauto.
Qed.

(** C7. The validator of the windowed front end accepts the parsed
    age, weight and height exactly when the age is in [14, 90], the
    weight is in [30, 300] if the unit is kg and in [66, 660] if it is
    lb, and the height is in [120, 220] if the unit is cm and in
    [47, 87] if it is in.  Every rejection is a ValueError whose message
    names a bound that is violated.  Ages 10 and 95 are rejected, ages 14
    and 90 are accepted. *)
Theorem validate_accepts_iff
  (age : Z) (weight height : float) (w_unit h_unit : string) :
  (tdee_gui.validate age weight height w_unit h_unit = Ok tt <->
   in_range age weight height w_unit h_unit) /\
  (forall e,
      tdee_gui.validate age weight height w_unit h_unit = Raise e ->
      exists msg, e = ValueError msg /\ violated age weight height w_unit h_unit msg) /\
  tdee_gui.validate 10 weight height w_unit h_unit
    = Raise (ValueError "Age must be between 14 and 90.") /\
  tdee_gui.validate 95 weight height w_unit h_unit
    = Raise (ValueError "Age must be between 14 and 90.") /\
  tdee_gui.validate 14 weight height w_unit h_unit
    = tdee_gui.validate 50 weight height w_unit h_unit /\
  tdee_gui.validate 90 weight height w_unit h_unit
    = tdee_gui.validate 50 weight height w_unit h_unit /\
  tdee_gui.validate 14 70 175 "kg" "cm" = Ok tt /\
  tdee_gui.validate 90 154 69 "lb" "in" = Ok tt.
Proof.
  split; [|split].
  - destruct (validate_outcome age weight height w_unit h_unit)
      as [[-> Hin] | (msg & -> & Hv)].
    + tauto.
    + apply violated_not_in_range in Hv. split; [discriminate | tauto].
  - intros e.
    destruct (validate_outcome age weight height w_unit h_unit)
      as [[-> Hin] | (msg & -> & Hv)]; [discriminate|].
    intros [= <-]. now exists msg.
  - repeat split.
Qed.

Lemma validate_accepts_iff_witness :
  tdee_gui.validate 30 300 120 "kg" "cm" = Ok tt /\
  (exists msg, ValueError "Height in inches must be between 47 and 87." = ValueError msg /\
               violated 30 660 88 "lb" "in" msg).
Proof.
  split.
  - apply (proj1 (validate_accepts_iff 30 300 120 "kg" "cm")).
    unfold in_range.
    repeat split; try lia; try discriminate.
  - apply (proj1 (proj2 (validate_accepts_iff 30 660 88 "lb" "in"))). reflexivity.
Defined.

Lemma gui_kg_to_lbs_returns (kg : float) :
  tdee_gui.kg_to_lbs kg = Ok (kg / 0.45359237).
Proof. reflexivity. Qed.

Lemma gui_cm_to_inches_returns (cm : float) :
  tdee_gui.cm_to_inches cm = Ok (cm / 2.54).
Proof. reflexivity. Qed.

Section Form.

Variable int_of_str : string -> result Z.
Variable float_of_str : string -> result float.
Variable format_f : nat -> float -> string.
Variable repr : string -> string.

Let compute_try := tdee_gui.compute_try int_of_str float_of_str format_f.
Let compute := tdee_gui.compute int_of_str float_of_str format_f repr.

(** Every statement of the [try] body that can raise comes before the
    first label is written: when the body raises, the form is as it
    was. *)
Lemma compute_try_raises_early (app app' : tdee_gui.TDEEApp) (e : exn) :
  compute_try app = (Raise e, app') -> app' = app.
Proof.
  unfold compute_try, tdee_gui.compute_try, tdee_gui.mbind, tdee_gui.get, tdee_gui.lift.
  destruct (int_of_str (tdee_gui.age_var app)) as [age|e1];
    [|intros [= _ <-]; reflexivity].
  destruct (float_of_str (tdee_gui.weight_var app)) as [weight|e2];
    [|intros [= _ <-]; reflexivity].
  destruct (float_of_str (tdee_gui.height_var app)) as [height|e3];
    [|intros [= _ <-]; reflexivity].
  destruct (tdee_gui.validate _ _ _ _ _) as [[]|e4];
    [|intros [= _ <-]; reflexivity].
  cbv zeta.
  destruct (tdee_gui.bmr_mifflin_st_jeor _ _ _ _) as [bmr|e5];
    [|intros [= _ <-]; reflexivity].
  destruct (dict_getitem _ _) as [factor|e6];
    [|intros [= _ <-]; reflexivity].
  rewrite gui_kg_to_lbs_returns, gui_cm_to_inches_returns.
  discriminate.
Qed.

(** [compute] shows a dialog exactly when the [try] body raises. *)
Lemma compute_dialog_iff (app : tdee_gui.TDEEApp) :
  snd (compute app) <> None <-> exists e, fst (compute_try app) = Raise e.
Proof.
  unfold compute, tdee_gui.compute. fold compute_try.
  destruct (compute_try app) as [[[]|e] app']; simpl.
  - split; [congruence | intros [e He]; discriminate].
  - split; [intros _; now exists e | intros _; destruct e; discriminate].
Qed.

Lemma compute_state (app : tdee_gui.TDEEApp) :
  fst (compute app) = snd (compute_try app).
Proof.
  unfold compute, tdee_gui.compute. fold compute_try.
  destruct (compute_try app) as [[[]|[]] app']; reflexivity.
Qed.

(** A failure of each kind does end in a dialog. *)
Lemma parse_failure_fails (app : tdee_gui.TDEEApp) (e : exn) :
  int_of_str (tdee_gui.age_var app) = Raise e \/
  float_of_str (tdee_gui.weight_var app) = Raise e \/
  float_of_str (tdee_gui.height_var app) = Raise e ->
  snd (compute app) <> None.
Proof.
  intros H. apply compute_dialog_iff.
  unfold compute_try, tdee_gui.compute_try, tdee_gui.mbind, tdee_gui.get, tdee_gui.lift.
  destruct (int_of_str (tdee_gui.age_var app)) as [age|e1]; [|now exists e1].
  destruct (float_of_str (tdee_gui.weight_var app)) as [weight|e2]; [|now exists e2].
  destruct (float_of_str (tdee_gui.height_var app)) as [height|e3]; [|now exists e3].
  destruct H as [H | [H | H]]; discriminate.
Qed.

Lemma validation_failure_fails
  (app : tdee_gui.TDEEApp) (age : Z) (weight height : float) (msg : string) :
  int_of_str (tdee_gui.age_var app) = Ok age ->
  float_of_str (tdee_gui.weight_var app) = Ok weight ->
  float_of_str (tdee_gui.height_var app) = Ok height ->
  tdee_gui.validate age weight height
    (tdee_gui.weight_unit_var app) (tdee_gui.height_unit_var app)
    = Raise (ValueError msg) ->
  compute app = (app, Some (tdee_gui.showerror "Invalid input" msg)).
Proof.
  intros Ha Hw Hh Hv.
  unfold compute, tdee_gui.compute, tdee_gui.compute_try,
    tdee_gui.mbind, tdee_gui.get, tdee_gui.lift.
  now rewrite Ha, Hw, Hh, Hv.
Qed.

Lemma core_failure_fails
  (app : tdee_gui.TDEEApp) (age : Z) (weight height : float) :
  int_of_str (tdee_gui.age_var app) = Ok age ->
  float_of_str (tdee_gui.weight_var app) = Ok weight ->
  float_of_str (tdee_gui.height_var app) = Ok height ->
  tdee_gui.validate age weight height
    (tdee_gui.weight_unit_var app) (tdee_gui.height_unit_var app) = Ok tt ->
  ~ In (tdee_gui.sex_var app) ["m"; "M"; "f"; "F"] ->
  compute app = (app, Some (tdee_gui.showerror "Invalid input" "sex must be 'm' or 'f'")).
Proof.
  intros Ha Hw Hh Hv Hs.
  unfold compute, tdee_gui.compute, tdee_gui.compute_try,
    tdee_gui.mbind, tdee_gui.get, tdee_gui.lift.
  rewrite Ha, Hw, Hh, Hv. cbv zeta.
  change tdee_gui.bmr_mifflin_st_jeor with firingrange.bmr_mifflin_st_jeor.
  cbn [tdee_gui.sex]. now rewrite (bmr_raises _ _ _ _ Hs).
Qed.

(** When the [try] body returns, the three labels hold the new result
    and the fields are as they were. *)
Lemma compute_try_returns (app app' : tdee_gui.TDEEApp) :
  compute_try app = (Ok tt, app') ->
  exists (w_kg h_cm bmr factor w_lb h_in : float),
    tdee_gui.kg_to_lbs w_kg = Ok w_lb /\
    tdee_gui.cm_to_inches h_cm = Ok h_in /\
    dict_getitem tdee_gui.ACTIVITY_FACTORS (tdee_gui.activity_var app) = Ok factor /\
    app' =
      {| tdee_gui.sex_var := tdee_gui.sex_var app;
         tdee_gui.age_var := tdee_gui.age_var app;
         tdee_gui.weight_var := tdee_gui.weight_var app;
         tdee_gui.weight_unit_var := tdee_gui.weight_unit_var app;
         tdee_gui.height_var := tdee_gui.height_var app;
         tdee_gui.height_unit_var := tdee_gui.height_unit_var app;
         tdee_gui.activity_var := tdee_gui.activity_var app;
         tdee_gui.bmr_label := "BMR (kcal/day): " ++ format_f 0 bmr;
         tdee_gui.tdee_label := "TDEE (kcal/day): " ++ format_f 0 (bmr * factor);
         tdee_gui.ref_label :=
           "Reference: weight " ++ format_f 1 w_kg ++ " kg (" ++ format_f 1 w_lb
           ++ " lb), " ++ "height " ++ format_f 1 h_cm ++ " cm (" ++ format_f 1 h_in
           ++ " in), " ++ "activity factor " ++ format_f 3 factor |}.
Proof.
  unfold compute_try, tdee_gui.compute_try, tdee_gui.mbind, tdee_gui.get, tdee_gui.lift.
  destruct (int_of_str (tdee_gui.age_var app)) as [age|e1]; [|discriminate].
  destruct (float_of_str (tdee_gui.weight_var app)) as [weight|e2]; [|discriminate].
  destruct (float_of_str (tdee_gui.height_var app)) as [height|e3]; [|discriminate].
  destruct (tdee_gui.validate _ _ _ _ _) as [[]|e4]; [|discriminate].
  cbv zeta.
  destruct (tdee_gui.bmr_mifflin_st_jeor _ _ _ _) as [bmr|e5]; [|discriminate].
  destruct (dict_getitem _ _) as [factor|e6] eqn:Ef; [|discriminate].
  rewrite gui_kg_to_lbs_returns, gui_cm_to_inches_returns.
  intros [= <-]. do 6 eexists. repeat split; try apply Ef.
Qed.

End Form.

(** The sample form, filled in with the inputs of the worked example of
    the specification, shows BMR 1674 and TDEE 2008. *)
Example compute_sample :
  Sample.compute (Sample.filled "m" "25" "70" "175") =
  ({| tdee_gui.sex_var := "m";
      tdee_gui.age_var := "25";
      tdee_gui.weight_var := "70";
      tdee_gui.weight_unit_var := "kg";
      tdee_gui.height_var := "175";
      tdee_gui.height_unit_var := "cm";
      tdee_gui.activity_var := "Sedentary (little/no exercise)";
      tdee_gui.bmr_label := "BMR (kcal/day): 1674";
      tdee_gui.tdee_label := "TDEE (kcal/day): 2008";
      tdee_gui.ref_label :=
        "Reference: weight 70.0 kg (154.3 lb), height 175.0 cm (68.9 in), activity factor 1.200"
   |}, None).
Proof. vm_compute. reflexivity. Qed.

(** C8. When the Compute action of the windowed front end fails (it
    ends in an error dialog: after a parse failure, a validation
    violation or a ValueError of the core), no partial result is shown:
    the three result labels, and the rest of the form, are as they were
    before the attempt. *)
Theorem compute_failure_keeps_labels
  (int_of_str : string -> result Z) (float_of_str : string -> result float)
  (format_f : nat -> float -> string) (repr : string -> string)
  (app : tdee_gui.TDEEApp) :
  let after := tdee_gui.compute int_of_str float_of_str format_f repr app in
  snd after <> None ->
  tdee_gui.labels (fst after) = tdee_gui.labels app /\ fst after = app.
Proof.
  intros after Hfail. unfold after in *.
  apply compute_dialog_iff in Hfail as [e He].
  rewrite compute_state.
  destruct (tdee_gui.compute_try int_of_str float_of_str format_f app)
    as [r app'] eqn:E.
  simpl in He. subst r. apply compute_try_raises_early in E. subst app'.
  split; reflexivity.
Qed.

Lemma compute_failure_keeps_labels_witness :
  let kept := ("BMR (kcal/day): 1500", "TDEE (kcal/day): 1800", "Reference: old") in
  tdee_gui.labels (fst (Sample.compute (Sample.filled "m" "2 5" "70" "175"))) = kept /\
  tdee_gui.labels (fst (Sample.compute (Sample.filled "m" "25" "700" "175"))) = kept /\
  tdee_gui.labels (fst (Sample.compute (Sample.filled "x" "25" "70" "175"))) = kept.
Proof.
  split; [|split].
  - apply (compute_failure_keeps_labels
             Sample.int_of_str Sample.float_of_str Sample.format_f Sample.repr
             (Sample.filled "m" "2 5" "70" "175")).
    vm_compute. discriminate.
  - apply (compute_failure_keeps_labels
             Sample.int_of_str Sample.float_of_str Sample.format_f Sample.repr
             (Sample.filled "m" "25" "700" "175")).
    vm_compute. discriminate.
  - apply (compute_failure_keeps_labels
             Sample.int_of_str Sample.float_of_str Sample.format_f Sample.repr
             (Sample.filled "x" "25" "70" "175")).
    vm_compute. discriminate.
Defined.

(** C9. From any state of the form, Clear returns without error and
    leaves the form at its defaults (the state of a freshly built form):
    sex 'm', weight unit kg, height unit cm, the activity selector on the
    second entry of the Activity Table, the age, weight and height fields
    empty, and each result label showing the placeholder after its
    caption. *)
Theorem clear_resets_to_defaults (app : tdee_gui.TDEEApp) :
  tdee_gui.clear app = (Ok tt, defaults) /\
  tdee_gui.init = Ok defaults /\
  nth_error (dict_keys tdee_gui.ACTIVITY_FACTORS) 1
    = Some (tdee_gui.activity_var defaults) /\
  tdee_gui.sex_var defaults = "m" /\
  tdee_gui.weight_unit_var defaults = "kg" /\
  tdee_gui.height_unit_var defaults = "cm" /\
  tdee_gui.age_var defaults = "" /\
  tdee_gui.weight_var defaults = "" /\
  tdee_gui.height_var defaults = "" /\
  tdee_gui.labels defaults
    = ("BMR (kcal/day): —", "TDEE (kcal/day): —", "Reference: —") /\
  tdee_gui.placeholder = "—".
Proof.
  repeat split.
Qed.


(* ================================================================== *)
(** * The text front end: prompt loops *)
(* ================================================================== *)

Lemma in_tuple_In (x : string) (t : list string) : in_tuple x t = true <-> In x t.
Proof.
  unfold in_tuple. rewrite existsb_exists. split.
  - intros (y & Hy & E). apply String.eqb_eq in E. now subst.
  - intros H. exists x. split; [exact H | apply String.eqb_refl].
Qed.

Lemma in_tuple_not_In (x : string) (t : list string) : in_tuple x t = false <-> ~ In x t.
Proof.
  rewrite <- in_tuple_In. destruct (in_tuple x t); intuition congruence.
Qed.

Section Retry.

Context {A : Type}.
Variable judge : string -> verdict A.
Variables prompt complaint : string.

Let run := retry judge prompt complaint.

Lemma asked_reject (line : string) (pre out : list string) :
  ((out ++ [prompt] ++ [complaint]) ++ asked prompt complaint pre
   = out ++ asked prompt complaint (line :: pre))%list.
Proof.
  unfold asked. simpl. now rewrite <- app_assoc.
Qed.

(** The loop returns from the first line that is accepted, provided
    every line before it was rejected. *)
Lemma retry_Returned (lines out : list string) (a : A) (c' : firingrange.console) :
  run lines out = (firingrange.Returned a, c') <->
  exists pre line rest,
    lines = (pre ++ line :: rest)%list /\
    Forall (fun l => judge l = Reject) pre /\
    judge line = Accept a /\
    c' = firingrange.mkConsole rest (out ++ asked prompt complaint pre).
Proof.
  unfold run. revert out. induction lines as [|l ls IH]; intros out; simpl.
  - split; [discriminate|]. intros ([|? ?] & ? & ? & E & _); discriminate.
  - destruct (judge l) as [a0| |e] eqn:J.
    + split.
      * intros [= <- <-]. exists [], l, ls. repeat split; auto.
      * intros ([|p pre] & line & rest & E & Hpre & Hline & ->); simpl in E.
        -- injection E as <- <-. rewrite J in Hline. now injection Hline as <-.
        -- injection E as <- _. inversion Hpre; congruence.
    + rewrite IH. split.
      * intros (pre & line & rest & -> & Hpre & Hline & ->).
        exists (l :: pre), line, rest. repeat split; auto.
        now rewrite (asked_reject l).
      * intros ([|p pre] & line & rest & E & Hpre & Hline & ->); simpl in E.
        -- injection E as <- _. congruence.
        -- injection E as <- ->. inversion Hpre; subst.
           exists pre, line, rest. repeat split; auto.
           now rewrite (asked_reject l).
    + split; [discriminate|].
      intros ([|p pre] & line & rest & E & Hpre & Hline & _); simpl in E.
      * injection E as <- _. congruence.
      * injection E as <- _. inversion Hpre; congruence.
Qed.

(** An exception escapes from the first line that aborts, provided
    every line before it was rejected. *)
Lemma retry_Raised (lines out : list string) (e : exn) (c' : firingrange.console) :
  run lines out = (firingrange.Raised e, c') <->
  exists pre line rest,
    lines = (pre ++ line :: rest)%list /\
    Forall (fun l => judge l = Reject) pre /\
    judge line = Abort e /\
    c' = firingrange.mkConsole rest (out ++ asked prompt complaint pre).
Proof.
  unfold run. revert out. induction lines as [|l ls IH]; intros out; simpl.
  - split; [discriminate|]. intros ([|? ?] & ? & ? & E & _); discriminate.
  - destruct (judge l) as [a0| |e0] eqn:J.
    + split; [discriminate|].
      intros ([|p pre] & line & rest & E & Hpre & Hline & _); simpl in E.
      * injection E as <- _. congruence.
      * injection E as <- _. inversion Hpre; congruence.
    + rewrite IH. split.
      * intros (pre & line & rest & -> & Hpre & Hline & ->).
        exists (l :: pre), line, rest. repeat split; auto.
        now rewrite (asked_reject l).
      * intros ([|p pre] & line & rest & E & Hpre & Hline & ->); simpl in E.
        -- injection E as <- _. congruence.
        -- injection E as <- ->. inversion Hpre; subst.
           exists pre, line, rest. repeat split; auto.
           now rewrite (asked_reject l).
    + split.
      * intros [= <- <-]. exists [], l, ls. repeat split; auto.
      * intros ([|p pre] & line & rest & E & Hpre & Hline & ->); simpl in E.
        -- injection E as <- <-. rewrite J in Hline. now injection Hline as <-.
        -- injection E as <- _. inversion Hpre; congruence.
Qed.

(** The loop meets the end of input exactly when it rejects every line
    there is. *)
Lemma retry_EndOfInput (lines out : list string) (c' : firingrange.console) :
  run lines out = (firingrange.EndOfInput, c') <->
  Forall (fun l => judge l = Reject) lines /\
  c' = firingrange.mkConsole [] (out ++ asked prompt complaint lines).
Proof.
  unfold run. revert out. induction lines as [|l ls IH]; intros out; simpl.
  - split.
    + intros [= <-]. split; [constructor | reflexivity].
    + intros [_ ->]. reflexivity.
  - destruct (judge l) as [a0| |e0] eqn:J.
    + split; [discriminate|]. intros [H _]. inversion H; congruence.
    + rewrite IH. split.
      * intros [H ->]. split; [now constructor | now rewrite (asked_reject l)].
      * intros [H ->]. inversion H; subst. split; [assumption | now rewrite (asked_reject l)].
    + split; [discriminate|]. intros [H _]. inversion H; congruence.
Qed.

End Retry.

Section PromptLoops.

Variable strip : string -> string.
Variable int_of_str : string -> result Z.
Variable float_of_str : string -> result float.

Lemma ask_float_retry (prompt : string) (lines out : list string) :
  firingrange.ask_float_from strip float_of_str prompt lines out
  = retry (judge_parse strip float_of_str) prompt ("Please enter a number." ++ firingrange.nl)
          lines out.
Proof.
  revert out. induction lines as [|l ls IH]; intros out; simpl; [reflexivity|].
  unfold judge_parse. destruct (float_of_str (strip l)) as [x|[]]; auto.
Qed.

Lemma ask_int_retry (prompt : string) (lines out : list string) :
  firingrange.ask_int_from strip int_of_str prompt lines out
  = retry (judge_parse strip int_of_str) prompt ("Please enter an integer." ++ firingrange.nl)
          lines out.
Proof.
  revert out. induction lines as [|l ls IH]; intros out; simpl; [reflexivity|].
  unfold judge_parse. destruct (int_of_str (strip l)) as [x|[]]; auto.
Qed.

Lemma ask_choice_retry (prompt : string) (choices lines out : list string) :
  firingrange.ask_choice_from strip prompt choices (map lower choices) lines out
  = retry (judge_choice strip choices) prompt
          ("Please choose one of: " ++ join ", " choices ++ firingrange.nl) lines out.
Proof.
  revert out. induction lines as [|l ls IH]; intros out; simpl; [reflexivity|].
  unfold judge_choice.
  destruct (in_tuple (lower (strip l)) (map lower choices)); auto.
Qed.

Lemma judge_parse_Reject {A : Type} (parse : string -> result A) (l : string) :
  judge_parse strip parse l = Reject <-> exists msg, parse (strip l) = Raise (ValueError msg).
Proof.
  unfold judge_parse. destruct (parse (strip l)) as [a|[]]; split;
    try discriminate; try (intros [m Hm]; discriminate); eauto.
Qed.

Lemma judge_parse_Accept {A : Type} (parse : string -> result A) (l : string) (a : A) :
  judge_parse strip parse l = Accept a <-> parse (strip l) = Ok a.
Proof.
  unfold judge_parse. destruct (parse (strip l)) as [a0|[]]; split;
    try discriminate; congruence.
Qed.

Lemma judge_parse_Abort {A : Type} (parse : string -> result A) (l : string) (e : exn) :
  judge_parse strip parse l = Abort e <->
  parse (strip l) = Raise e /\ forall msg, e <> ValueError msg.
Proof.
  unfold judge_parse. destruct (parse (strip l)) as [a0|[]]; split;
    try discriminate; try (intros [H _]; discriminate);
    try (intros [= <-]; split; [reflexivity | discriminate]);
    try (intros [[= <-] _]; reflexivity).
  intros [[= <-] H]. now contradiction (H msg).
Qed.

Lemma judge_choice_Reject (choices : list string) (l : string) :
  judge_choice strip choices l = Reject <-> ~ In (lower (strip l)) (map lower choices).
Proof.
  unfold judge_choice. rewrite <- in_tuple_not_In.
  destruct (in_tuple _ _); split; congruence.
Qed.

Lemma judge_choice_Accept (choices : list string) (l v : string) :
  judge_choice strip choices l = Accept v <->
  In (lower (strip l)) (map lower choices) /\ v = lower (strip l).
Proof.
  unfold judge_choice. rewrite <- in_tuple_In.
  destruct (in_tuple _ _); split; try discriminate.
  - intros [= <-]. auto.
  - intros [_ ->]. reflexivity.
  - intros [? _]. discriminate.
Qed.

Lemma Forall_iff {X : Type} (P Q : X -> Prop) (l : list X) :
  (forall x, P x <-> Q x) -> Forall P l <-> Forall Q l.
Proof.
  intros H. rewrite !Forall_forall. split; intros HF x Hx; apply H, HF, Hx.
Qed.

End PromptLoops.

(** X1. With choices that are ASCII text (as all the choices of [main]
    are), [ask_choice] returns exactly from the first line whose
    stripped, lowered text is one of the lowered choices, every earlier
    line being none of them; what it returns is that stripped, lowered
    text (so a member of the lowered choices, ASCII text itself, not the
    line as typed); the lines after it are left to be read, and it has
    written the prompt and the complaint once per rejected line and then
    the prompt once more. *)
Theorem ask_choice_returns
  (strip : string -> string) (prompt : string) (choices : list string)
  (c c' : firingrange.console) (v : string) :
  Forall (fun choice => isascii choice = true) choices ->
  (firingrange.ask_choice strip prompt choices c = (firingrange.Returned v, c') <->
   exists pre line rest,
     firingrange.stdin c = (pre ++ line :: rest)%list /\
     Forall (fun l => ~ In (lower (strip l)) (map lower choices)) pre /\
     In (lower (strip line)) (map lower choices) /\
     v = lower (strip line) /\
     c' = firingrange.mkConsole rest
            (firingrange.stdout c
             ++ asked prompt
                  ("Please choose one of: " ++ join ", " choices ++ firingrange.nl) pre)) /\
  (firingrange.ask_choice strip prompt choices c = (firingrange.Returned v, c') ->
   isascii v = true).
Proof.
  intros Hascii.
  assert (Hiff :
    firingrange.ask_choice strip prompt choices c = (firingrange.Returned v, c') <->
    exists pre line rest,
      firingrange.stdin c = (pre ++ line :: rest)%list /\
      Forall (fun l => ~ In (lower (strip l)) (map lower choices)) pre /\
      In (lower (strip line)) (map lower choices) /\
      v = lower (strip line) /\
      c' = firingrange.mkConsole rest
             (firingrange.stdout c
              ++ asked prompt
                   ("Please choose one of: " ++ join ", " choices ++ firingrange.nl) pre)).
  { unfold firingrange.ask_choice. rewrite ask_choice_retry, retry_Returned.
    split; intros (pre & line & rest & E & Hpre & Hline & Hc); exists pre, line, rest.
    - apply judge_choice_Accept in Hline as [Hin ->].
      rewrite (Forall_iff _ _ pre (judge_choice_Reject strip choices)) in Hpre. auto.
    - destruct Hc as [-> ->].
      rewrite <- (Forall_iff _ _ pre (judge_choice_Reject strip choices)) in Hpre.
      repeat split; auto. apply judge_choice_Accept. auto. }
  split; [exact Hiff|].
  intros H. apply Hiff in H as (pre & line & rest & _ & _ & Hin & -> & _).
  apply in_map_iff in Hin as (choice & <- & Hchoice).
  apply lower_isascii. rewrite Forall_forall in Hascii. now apply Hascii.
Qed.

Lemma ask_choice_returns_witness :
  firingrange.ask_choice Sample.strip "Sex (m/f): " ["m"; "f"]
    (Sample.typed ["male"; ""; " F "; "25"])
  = (firingrange.Returned "f",
     firingrange.mkConsole ["25"]
       ["Sex (m/f): "; "Please choose one of: m, f" ++ firingrange.nl;
        "Sex (m/f): "; "Please choose one of: m, f" ++ firingrange.nl;
        "Sex (m/f): "]).
Proof.
  assert (Hascii : Forall (fun choice => isascii choice = true) ["m"; "f"])
    by (repeat constructor).
  apply (proj2 (proj1 (ask_choice_returns Sample.strip "Sex (m/f): " ["m"; "f"]
                         (Sample.typed ["male"; ""; " F "; "25"]) _ "f" Hascii))).
  exists ["male"; ""], " F ", ["25"].
  split; [reflexivity|]. split.
  - repeat constructor; vm_compute; intuition discriminate.
  - split; [vm_compute; auto|]. split; reflexivity.
Defined.

(** X2. With choices that are ASCII text, [ask_choice] never raises;
    it meets the end of input exactly when no line left is, once
    stripped and lowered, one of the lowered choices, having then read
    them all and complained about each.  A line that spells a choice
    with the Kelvin sign for its k is one of the choices. *)
Theorem ask_choice_end_of_input
  (strip : string -> string) (prompt : string) (choices : list string)
  (c c' : firingrange.console) :
  Forall (fun choice => isascii choice = true) choices ->
  (forall e, firingrange.ask_choice strip prompt choices c <> (firingrange.Raised e, c')) /\
  (firingrange.ask_choice strip prompt choices c = (firingrange.EndOfInput, c') <->
   Forall (fun l => ~ In (lower (strip l)) (map lower choices)) (firingrange.stdin c) /\
   c' = firingrange.mkConsole []
          (firingrange.stdout c
           ++ asked prompt
                ("Please choose one of: " ++ join ", " choices ++ firingrange.nl)
                (firingrange.stdin c))).
Proof.
  intros _.
  unfold firingrange.ask_choice. rewrite ask_choice_retry. split.
  - intros e H. apply retry_Raised in H as (pre & line & rest & _ & _ & Hline & _).
    unfold judge_choice in Hline. destruct (in_tuple _ _); discriminate.
  - rewrite retry_EndOfInput.
    now rewrite (Forall_iff _ _ _ (judge_choice_Reject strip choices)).
Qed.

Lemma ask_choice_end_of_input_witness :
  firingrange.ask_choice Sample.strip "Sex (m/f): " ["m"; "f"] (Sample.typed ["x"])
  = (firingrange.EndOfInput,
     firingrange.mkConsole []
       ["Sex (m/f): "; "Please choose one of: m, f" ++ firingrange.nl; "Sex (m/f): "]).
Proof.
  assert (Hascii : Forall (fun choice => isascii choice = true) ["m"; "f"])
    by (repeat constructor).
  apply (proj2 (proj2 (ask_choice_end_of_input Sample.strip "Sex (m/f): " ["m"; "f"]
                         (Sample.typed ["x"]) _ Hascii))).
  split; [|reflexivity].
  repeat constructor; vm_compute; intuition discriminate.
Defined.

(** A unit typed with the Kelvin sign for its k is taken: its lowered
    text is "kg". *)
Example ask_choice_kelvin_sample :
  firingrange.ask_choice Sample.strip "Is your weight in kg or lb? (kg/lb): " ["kg"; "lb"]
    (Sample.typed [kelvin_sign ++ "g"; "70"])
  = (firingrange.Returned "kg",
     firingrange.mkConsole ["70"] ["Is your weight in kg or lb? (kg/lb): "]).
Proof. reflexivity. Qed.

(** X3. [ask_int] and [ask_float] return exactly the number parsed from
    the first stripped line that parses, every earlier line having made
    the parser raise a ValueError; the lines after it are left to be
    read, and the prompt and the complaint have been written once per
    rejected line and then the prompt once more. *)
Theorem ask_number_returns
  (strip : string -> string)
  (int_of_str : string -> result Z) (float_of_str : string -> result float)
  (prompt : string) (c c' : firingrange.console) (n : Z) (x : float) :
  (firingrange.ask_int strip int_of_str prompt c = (firingrange.Returned n, c') <->
   exists pre line rest,
     firingrange.stdin c = (pre ++ line :: rest)%list /\
     Forall (fun l => exists msg, int_of_str (strip l) = Raise (ValueError msg)) pre /\
     int_of_str (strip line) = Ok n /\
     c' = firingrange.mkConsole rest
            (firingrange.stdout c
             ++ asked prompt ("Please enter an integer." ++ firingrange.nl) pre)) /\
  (firingrange.ask_float strip float_of_str prompt c = (firingrange.Returned x, c') <->
   exists pre line rest,
     firingrange.stdin c = (pre ++ line :: rest)%list /\
     Forall (fun l => exists msg, float_of_str (strip l) = Raise (ValueError msg)) pre /\
     float_of_str (strip line) = Ok x /\
     c' = firingrange.mkConsole rest
            (firingrange.stdout c
             ++ asked prompt ("Please enter a number." ++ firingrange.nl) pre)).
Proof.
  unfold firingrange.ask_int, firingrange.ask_float.
  rewrite ask_int_retry, ask_float_retry, !retry_Returned. split.
  - split; intros (pre & line & rest & E & Hpre & Hline & Hc); exists pre, line, rest.
    + rewrite (Forall_iff _ _ pre (judge_parse_Reject strip int_of_str)) in Hpre.
      apply judge_parse_Accept in Hline. auto.
    + rewrite <- (Forall_iff _ _ pre (judge_parse_Reject strip int_of_str)) in Hpre.
      apply judge_parse_Accept in Hline. auto.
  - split; intros (pre & line & rest & E & Hpre & Hline & Hc); exists pre, line, rest.
    + rewrite (Forall_iff _ _ pre (judge_parse_Reject strip float_of_str)) in Hpre.
      apply judge_parse_Accept in Hline. auto.
    + rewrite <- (Forall_iff _ _ pre (judge_parse_Reject strip float_of_str)) in Hpre.
      apply judge_parse_Accept in Hline. auto.
Qed.

Lemma ask_number_returns_witness :
  firingrange.ask_int Sample.strip Sample.int_of_str "Age (years): "
    (Sample.typed ["2 5"; " -5 "; "kg"])
  = (firingrange.Returned (-5)%Z,
     firingrange.mkConsole ["kg"]
       ["Age (years): "; "Please enter an integer." ++ firingrange.nl; "Age (years): "]) /\
  firingrange.ask_float Sample.strip Sample.float_of_str "Weight (kg): "
    (Sample.typed ["70.5"; "175"])
  = (firingrange.Returned 70.5, firingrange.mkConsole ["175"] ["Weight (kg): "]).
Proof.
  split.
  - apply (proj2 (proj1 (ask_number_returns Sample.strip Sample.int_of_str
                           Sample.float_of_str "Age (years): "
                           (Sample.typed ["2 5"; " -5 "; "kg"]) _ (-5)%Z 0))).
    exists ["2 5"], " -5 ", ["kg"].
    split; [reflexivity|]. split; [|split; reflexivity].
    repeat constructor. eexists. vm_compute. reflexivity.
  - apply (proj2 (proj2 (ask_number_returns Sample.strip Sample.int_of_str
                           Sample.float_of_str "Weight (kg): "
                           (Sample.typed ["70.5"; "175"]) _ 0%Z 70.5))).
    exists [], "70.5", ["175"].
    split; [reflexivity|]. split; [constructor|split; reflexivity].
Defined.

(** X4. [ask_int] and [ask_float] catch the ValueError of the parser and
    nothing else: they meet the end of input exactly when every line
    left makes the parser raise a ValueError, and an exception escapes
    from them exactly when, after lines that did so, a line makes the
    parser raise an exception that is not a ValueError. *)
Theorem ask_number_fails
  (strip : string -> string)
  (int_of_str : string -> result Z) (float_of_str : string -> result float)
  (prompt : string) (c c' : firingrange.console) (e : exn) :
  (firingrange.ask_int strip int_of_str prompt c = (firingrange.EndOfInput, c') <->
   Forall (fun l => exists msg, int_of_str (strip l) = Raise (ValueError msg))
          (firingrange.stdin c) /\
   c' = firingrange.mkConsole []
          (firingrange.stdout c
           ++ asked prompt ("Please enter an integer." ++ firingrange.nl)
                (firingrange.stdin c))) /\
  (firingrange.ask_float strip float_of_str prompt c = (firingrange.EndOfInput, c') <->
   Forall (fun l => exists msg, float_of_str (strip l) = Raise (ValueError msg))
          (firingrange.stdin c) /\
   c' = firingrange.mkConsole []
          (firingrange.stdout c
           ++ asked prompt ("Please enter a number." ++ firingrange.nl)
                (firingrange.stdin c))) /\
  (firingrange.ask_int strip int_of_str prompt c = (firingrange.Raised e, c') <->
   exists pre line rest,
     firingrange.stdin c = (pre ++ line :: rest)%list /\
     Forall (fun l => exists msg, int_of_str (strip l) = Raise (ValueError msg)) pre /\
     int_of_str (strip line) = Raise e /\ (forall msg, e <> ValueError msg) /\
     c' = firingrange.mkConsole rest
            (firingrange.stdout c
             ++ asked prompt ("Please enter an integer." ++ firingrange.nl) pre)) /\
  (firingrange.ask_float strip float_of_str prompt c = (firingrange.Raised e, c') <->
   exists pre line rest,
     firingrange.stdin c = (pre ++ line :: rest)%list /\
     Forall (fun l => exists msg, float_of_str (strip l) = Raise (ValueError msg)) pre /\
     float_of_str (strip line) = Raise e /\ (forall msg, e <> ValueError msg) /\
     c' = firingrange.mkConsole rest
            (firingrange.stdout c
             ++ asked prompt ("Please enter a number." ++ firingrange.nl) pre)).
Proof.
  unfold firingrange.ask_int, firingrange.ask_float.
  rewrite ask_int_retry, ask_float_retry, !retry_EndOfInput, !retry_Raised.
  rewrite (Forall_iff _ _ _ (judge_parse_Reject strip int_of_str)).
  rewrite (Forall_iff _ _ _ (judge_parse_Reject strip float_of_str)).
  split; [tauto|]. split; [tauto|]. split.
  - split; intros (pre & line & rest & E & Hpre & Hline); exists pre, line, rest.
    + rewrite (Forall_iff _ _ pre (judge_parse_Reject strip int_of_str)) in Hpre.
      destruct Hline as [Hline Hc]. apply judge_parse_Abort in Hline. tauto.
    + rewrite <- (Forall_iff _ _ pre (judge_parse_Reject strip int_of_str)) in Hpre.
      destruct Hline as (H1 & H2 & Hc).
      repeat split; auto. apply judge_parse_Abort. auto.
  - split; intros (pre & line & rest & E & Hpre & Hline); exists pre, line, rest.
    + rewrite (Forall_iff _ _ pre (judge_parse_Reject strip float_of_str)) in Hpre.
      destruct Hline as [Hline Hc]. apply judge_parse_Abort in Hline. tauto.
    + rewrite <- (Forall_iff _ _ pre (judge_parse_Reject strip float_of_str)) in Hpre.
      destruct Hline as (H1 & H2 & Hc).
      repeat split; auto. apply judge_parse_Abort. auto.
Qed.

Lemma ask_number_fails_witness :
  firingrange.ask_float Sample.strip Sample.float_of_str "Weight (kg): "
    (Sample.typed ["seventy"; ""])
  = (firingrange.EndOfInput,
     firingrange.mkConsole []
       ["Weight (kg): "; "Please enter a number." ++ firingrange.nl;
        "Weight (kg): "; "Please enter a number." ++ firingrange.nl;
        "Weight (kg): "]).
Proof.
  apply (proj2 (proj1 (proj2 (ask_number_fails Sample.strip Sample.int_of_str
                                Sample.float_of_str "Weight (kg): "
                                (Sample.typed ["seventy"; ""]) _ (KeyError ""))))).
  split; [|reflexivity].
  repeat constructor; eexists; vm_compute; reflexivity.
Defined.

(* ================================================================== *)
(** * The text front end: main *)
(* ================================================================== *)

Section Composition.

Context {A B : Type}.
Implicit Types (m : firingrange.IO A) (k : A -> firingrange.IO B).

Lemma never_raises_bind m k (P : A -> Prop) :
  never_raises m -> returns_only m P ->
  (forall a, P a -> never_raises (k a)) ->
  never_raises (firingrange.io_bind m k).
Proof.
  intros Hm HP Hk c e c'. unfold firingrange.io_bind.
  destruct (m c) as [[a|e0|] c1] eqn:E.
  - apply (Hk a (HP _ _ _ E)).
  - intros [= <- <-]. exact (Hm _ _ _ E).
  - discriminate.
Qed.

Lemma raises_only_bind m k (P : A -> Prop) (R : exn -> Prop) :
  raises_only m R -> returns_only m P ->
  (forall a, P a -> raises_only (k a) R) ->
  raises_only (firingrange.io_bind m k) R.
Proof.
  intros Hm HP Hk c e c'. unfold firingrange.io_bind.
  destruct (m c) as [[a|e0|] c1] eqn:E.
  - apply (Hk a (HP _ _ _ E)).
  - intros [= <- <-]. exact (Hm _ _ _ E).
  - discriminate.
Qed.

Lemma reads_at_least_bind m k (n p : nat) :
  reads_at_least m n -> (forall a, reads_at_least (k a) p) ->
  reads_at_least (firingrange.io_bind m k) (n + p).
Proof.
  intros Hm Hk c b c'. unfold firingrange.io_bind.
  destruct (m c) as [[a|e0|] c1] eqn:E; try discriminate.
  intros Hka. destruct (Hm _ _ _ E) as (u1 & E1 & L1).
  destruct (Hk a _ _ _ Hka) as (u2 & E2 & L2).
  exists (u1 ++ u2)%list. split.
  - now rewrite E1, E2, app_assoc.
  - rewrite length_app. lia.
Qed.

End Composition.

Lemma never_raises_print (s : string) : never_raises (firingrange.print s).
Proof. intros c e c'. discriminate. Qed.

Lemma never_raises_weaken {A : Type} (m : firingrange.IO A) (R : exn -> Prop) :
  never_raises m -> raises_only m R.
Proof. intros H c e c' E. now apply H in E. Qed.

Lemma raises_only_lift {A : Type} (r : result A) (R : exn -> Prop) :
  (forall e, r = Raise e -> R e) -> raises_only (firingrange.io_lift r) R.
Proof.
  intros H c e c'. unfold firingrange.io_lift. destruct r as [a|e0]; [discriminate|].
  intros [= <- <-]. now apply H.
Qed.

Lemma reads_at_least_print (s : string) : reads_at_least (firingrange.print s) 0.
Proof.
  intros c a c' [= <- <-]. exists []. split; [reflexivity | simpl; lia].
Qed.

Lemma never_raises_lift {A : Type} (r : result A) :
  returns r -> never_raises (firingrange.io_lift r).
Proof.
  intros [a ->] c e c'. discriminate.
Qed.

Lemma reads_at_least_lift {A : Type} (r : result A) :
  reads_at_least (firingrange.io_lift r) 0.
Proof.
  intros c a c'. unfold firingrange.io_lift.
  destruct r; intros [= <- <-]; exists []; (split; [reflexivity | simpl; lia]).
Qed.

Lemma retry_reads {A : Type} (judge : string -> verdict A) (prompt complaint : string)
  (lines out : list string) (a : A) (c' : firingrange.console) :
  retry judge prompt complaint lines out = (firingrange.Returned a, c') ->
  exists used, lines = (used ++ firingrange.stdin c')%list /\ (1 <= List.length used)%nat.
Proof.
  intros H. apply retry_Returned in H as (pre & line & rest & -> & _ & _ & ->).
  exists (pre ++ [line])%list. split.
  - now rewrite <- app_assoc.
  - rewrite length_app. simpl. lia.
Qed.

Section MainSteps.

Variable strip : string -> string.
Variable int_of_str : string -> result Z.
Variable float_of_str : string -> result float.

Lemma ask_choice_reads (prompt : string) (choices : list string) :
  reads_at_least (firingrange.ask_choice strip prompt choices) 1.
Proof.
  intros c a c'. unfold firingrange.ask_choice. rewrite ask_choice_retry.
  apply retry_reads.
Qed.

Lemma ask_int_reads (prompt : string) :
  reads_at_least (firingrange.ask_int strip int_of_str prompt) 1.
Proof.
  intros c a c'. unfold firingrange.ask_int. rewrite ask_int_retry. apply retry_reads.
Qed.

Lemma ask_float_reads (prompt : string) :
  reads_at_least (firingrange.ask_float strip float_of_str prompt) 1.
Proof.
  intros c a c'. unfold firingrange.ask_float. rewrite ask_float_retry. apply retry_reads.
Qed.

Lemma ask_choice_never_raises (prompt : string) (choices : list string) :
  never_raises (firingrange.ask_choice strip prompt choices).
Proof.
  intros c e c' H. unfold firingrange.ask_choice in H. rewrite ask_choice_retry in H.
  apply retry_Raised in H as (pre & line & rest & _ & _ & Hline & _).
  unfold judge_choice in Hline. destruct (in_tuple _ _); discriminate.
Qed.

Lemma ask_choice_member (prompt : string) (choices : list string) :
  returns_only (firingrange.ask_choice strip prompt choices)
               (fun v => In v (map lower choices)).
Proof.
  intros c v c' H. unfold firingrange.ask_choice in H. rewrite ask_choice_retry in H.
  apply retry_Returned in H as (pre & line & rest & _ & _ & Hline & _).
  apply judge_choice_Accept in Hline as [Hin ->]. exact Hin.
Qed.

Lemma ask_int_never_raises (prompt : string) :
  only_ValueError int_of_str ->
  never_raises (firingrange.ask_int strip int_of_str prompt).
Proof.
  intros Hv c e c' H. unfold firingrange.ask_int in H. rewrite ask_int_retry in H.
  apply retry_Raised in H as (pre & line & rest & _ & _ & Hline & _).
  apply judge_parse_Abort in Hline as [Hr Hne].
  destruct (Hv _ _ Hr) as [msg ->]. now apply (Hne msg).
Qed.

Lemma ask_float_never_raises (prompt : string) :
  only_ValueError float_of_str ->
  never_raises (firingrange.ask_float strip float_of_str prompt).
Proof.
  intros Hv c e c' H. unfold firingrange.ask_float in H. rewrite ask_float_retry in H.
  apply retry_Raised in H as (pre & line & rest & _ & _ & Hline & _).
  apply judge_parse_Abort in Hline as [Hr Hne].
  destruct (Hv _ _ Hr) as [msg ->]. now apply (Hne msg).
Qed.

End MainSteps.

Lemma returns_only_trivial {A : Type} (m : firingrange.IO A) :
  returns_only m (fun _ => True).
Proof. intros c a c' _. exact I. Qed.

Lemma bmr_returns (sex : string) (w h : float) (a : Z) :
  In sex ["m"; "f"] -> converts (5 * a) ->
  returns (firingrange.bmr_mifflin_st_jeor sex w h a).
Proof.
  intros Hs Ha.
  destruct (bmr_cases sex w h a Ha) as [[_ ->] | [[_ ->] | (Nm & Nf & _)]];
    [eexists; reflexivity | eexists; reflexivity |].
  destruct Hs as [<- | [<- | []]]; [now elim Nm | now elim Nf].
Qed.

Lemma bmr_raises_overflow (sex : string) (w h : float) (a : Z) (e : exn) :
  In sex ["m"; "f"] ->
  firingrange.bmr_mifflin_st_jeor sex w h a = Raise e ->
  e = OverflowError "int too large to convert to float".
Proof.
  intros Hs He.
  assert (Hin : In sex ["m"; "M"; "f"; "F"]) by (simpl in *; tauto).
  destruct (bmr_recognized sex w h a Hin) as [[r Hr] | Ho]; congruence.
Qed.

Lemma tdee_returns (bmr : float) (key : string) :
  In key (dict_keys firingrange.ACTIVITY_FACTORS) ->
  returns (firingrange.tdee_from_bmr bmr key).
Proof.
  simpl. intros [<- | [<- | [<- | [<- | [<- | []]]]]]; eexists; reflexivity.
Qed.

Lemma factor_returns (key : string) :
  In key (dict_keys firingrange.ACTIVITY_FACTORS) ->
  returns (dict_getitem firingrange.ACTIVITY_FACTORS key).
Proof.
  simpl. intros [<- | [<- | [<- | [<- | [<- | []]]]]]; eexists; reflexivity.
Qed.

Lemma reads_at_least_weaken {A : Type} (m : firingrange.IO A) (n n' : nat) :
  reads_at_least m n -> (n' <= n)%nat -> reads_at_least m n'.
Proof.
  intros H Hle c a c' E. destruct (H _ _ _ E) as (used & Eu & L).
  exists used. split; [exact Eu | lia].
Qed.

Ltac print_raises_only :=
  eapply raises_only_bind;
  [apply never_raises_weaken, never_raises_print
  | apply returns_only_trivial | intros _ _].

Ltac lift_raises_only :=
  eapply raises_only_bind;
  [apply never_raises_weaken, never_raises_lift
  | apply returns_only_trivial | intros ? _].

(** X5. Provided the parsers raise nothing but ValueError (as [int] and
    [float] do on strings), the only exception [main] can end in is the
    OverflowError of an age too large to convert to a float: it ends in
    no ValueError, KeyError, IndexError or ZeroDivisionError.  The
    formulas never reject the sex and activity the prompts have let
    through, the table lookup finds its key and the divisors are not
    zero. *)
Theorem main_raises_only_overflow
  (strip : string -> string)
  (int_of_str : string -> result Z) (float_of_str : string -> result float)
  (format_f : nat -> float -> string) :
  only_ValueError int_of_str -> only_ValueError float_of_str ->
  raises_only (firingrange.main strip int_of_str float_of_str format_f)
              (fun e => e = OverflowError "int too large to convert to float").
Proof.
  intros Hint Hfloat. unfold firingrange.main.
  print_raises_only.
  eapply raises_only_bind;
    [apply never_raises_weaken, ask_choice_never_raises
    | apply ask_choice_member | intros sex Hsex].
  eapply raises_only_bind;
    [now apply never_raises_weaken, ask_int_never_raises
    | apply returns_only_trivial | intros age _].
  eapply raises_only_bind;
    [apply never_raises_weaken, ask_choice_never_raises
    | apply ask_choice_member | intros w_unit _].
  eapply raises_only_bind;
    [now apply never_raises_weaken, ask_float_never_raises
    | apply returns_only_trivial | intros weight _].
  eapply raises_only_bind;
    [apply never_raises_weaken, ask_choice_never_raises
    | apply ask_choice_member | intros h_unit _].
  eapply raises_only_bind;
    [now apply never_raises_weaken, ask_float_never_raises
    | apply returns_only_trivial | intros height _].
  do 6 print_raises_only.
  eapply raises_only_bind;
    [apply never_raises_weaken, ask_choice_never_raises
    | apply ask_choice_member | intros activity Hact].
  cbv zeta. cbn [firingrange.sex firingrange.age firingrange.activity].
  eapply raises_only_bind;
    [apply raises_only_lift; intros e; now apply bmr_raises_overflow
    | apply returns_only_trivial | intros bmr _].
  lift_raises_only; [now apply tdee_returns|].
  do 4 print_raises_only.
  lift_raises_only; [eexists; apply kg_to_lbs_returns|].
  print_raises_only.
  lift_raises_only; [eexists; apply cm_to_inches_returns|].
  print_raises_only.
  lift_raises_only; [now apply factor_returns|].
  apply never_raises_weaken, never_raises_print.
Qed.

Lemma sample_int_only_ValueError : only_ValueError Sample.int_of_str.
Proof.
  intros s e. unfold Sample.int_of_str. destruct (Sample.signed s); [discriminate|].
  intros [= <-]. eexists. reflexivity.
Qed.

Lemma sample_float_only_ValueError : only_ValueError Sample.float_of_str.
Proof.
  intros s e. unfold Sample.float_of_str.
  match goal with |- match ?o with _ => _ end = _ -> _ => destruct o end;
    [discriminate|].
  intros [= <-]. eexists. reflexivity.
Qed.

Lemma main_raises_only_overflow_witness :
  raises_only Sample.main
              (fun e => e = OverflowError "int too large to convert to float").
Proof.
  apply (main_raises_only_overflow Sample.strip Sample.int_of_str Sample.float_of_str
           Sample.format_f).
  - exact sample_int_only_ValueError.
  - exact sample_float_only_ValueError.
Defined.

(** The exception does occur: an age of 310 digits is read by [int] and
    leaves the range of a float in the formula. *)
Example main_overflow_sample :
  fst (Sample.main
         (Sample.typed ["m"; "1" ++ string_of_list_ascii (repeat "0"%char 309);
                        "kg"; "70"; "cm"; "175"; "light"]))
  = firingrange.Raised (OverflowError "int too large to convert to float").
Proof. vm_compute. reflexivity. Qed.

Ltac print_reads :=
  eapply reads_at_least_bind; [apply reads_at_least_print | intros _].

Ltac lift_reads :=
  eapply reads_at_least_bind; [apply reads_at_least_lift | intros ?].

(** X6. A run of [main] that returns has read at least seven lines (one
    or more for each of its seven questions), and the input left is
    what followed them: on fewer than seven lines [main] never gets to
    its report. *)
Theorem main_reads_seven_lines
  (strip : string -> string)
  (int_of_str : string -> result Z) (float_of_str : string -> result float)
  (format_f : nat -> float -> string)
  (c c' : firingrange.console) :
  firingrange.main strip int_of_str float_of_str format_f c = (firingrange.Returned tt, c') ->
  exists used,
    firingrange.stdin c = (used ++ firingrange.stdin c')%list /\
    (7 <= List.length used)%nat.
Proof.
  revert c c'.
  assert (H : exists n, (7 <= n)%nat /\
                reads_at_least (firingrange.main strip int_of_str float_of_str format_f) n).
  { eexists. split; [|unfold firingrange.main].
    2:{ print_reads.
        eapply reads_at_least_bind; [apply ask_choice_reads | intros sex].
        eapply reads_at_least_bind; [apply ask_int_reads | intros age].
        eapply reads_at_least_bind; [apply ask_choice_reads | intros w_unit].
        eapply reads_at_least_bind; [apply ask_float_reads | intros weight].
        eapply reads_at_least_bind; [apply ask_choice_reads | intros h_unit].
        eapply reads_at_least_bind; [apply ask_float_reads | intros height].
        do 6 print_reads.
        eapply reads_at_least_bind; [apply ask_choice_reads | intros activity].
        cbv zeta.
        do 2 lift_reads. do 4 print_reads. lift_reads. print_reads. lift_reads.
        print_reads. lift_reads. apply reads_at_least_print. }
    simpl. lia. }
  destruct H as (n & Hn & Hreads). intros c c' E.
  destruct (Hreads _ _ _ E) as (used & Eu & L). exists used. split; [exact Eu | lia].
Qed.

Lemma main_reads_seven_lines_witness :
  exists used,
    ["M"; "25"; "kg"; "70"; "cm"; "175"; "very"; "left"]
    = (used ++ ["left"])%list /\ (7 <= List.length used)%nat.
Proof.
  apply (main_reads_seven_lines Sample.strip Sample.int_of_str Sample.float_of_str
           Sample.format_f
           (Sample.typed ["M"; "25"; "kg"; "70"; "cm"; "175"; "very"; "left"])
           (snd (Sample.main
                   (Sample.typed ["M"; "25"; "kg"; "70"; "cm"; "175"; "very"; "left"])))).
  vm_compute. reflexivity.
Defined.

Section FirstTry.

Variable strip : string -> string.
Variable int_of_str : string -> result Z.
Variable float_of_str : string -> result float.

Lemma ask_choice_first (prompt : string) (choices : list string)
  (line : string) (rest out : list string) :
  In (lower (strip line)) (map lower choices) ->
  firingrange.ask_choice strip prompt choices (firingrange.mkConsole (line :: rest) out)
  = (firingrange.Returned (lower (strip line)),
     firingrange.mkConsole rest (out ++ [prompt])).
Proof.
  intros H. apply in_tuple_In in H.
  unfold firingrange.ask_choice. simpl. now rewrite H.
Qed.

Lemma ask_int_first (prompt line : string) (rest out : list string) (n : Z) :
  int_of_str (strip line) = Ok n ->
  firingrange.ask_int strip int_of_str prompt (firingrange.mkConsole (line :: rest) out)
  = (firingrange.Returned n, firingrange.mkConsole rest (out ++ [prompt])).
Proof.
  intros H. unfold firingrange.ask_int. simpl. now rewrite H.
Qed.

Lemma ask_float_first (prompt line : string) (rest out : list string) (x : float) :
  float_of_str (strip line) = Ok x ->
  firingrange.ask_float strip float_of_str prompt (firingrange.mkConsole (line :: rest) out)
  = (firingrange.Returned x, firingrange.mkConsole rest (out ++ [prompt])).
Proof.
  intros H. unfold firingrange.ask_float. simpl. now rewrite H.
Qed.

End FirstTry.

Lemma tdee_in_table (bmr : float) (key : string) (factor : float) :
  In (key, factor) firingrange.ACTIVITY_FACTORS ->
  firingrange.tdee_from_bmr bmr key = Ok (bmr * factor) /\
  dict_getitem firingrange.ACTIVITY_FACTORS key = Ok factor.
Proof.
  simpl. intros [E | [E | [E | [E | [E | []]]]]]; injection E as <- <-; split; reflexivity.
Qed.

Lemma key_in_table (key : string) :
  In key activity_keys -> exists factor, In (key, factor) firingrange.ACTIVITY_FACTORS.
Proof.
  simpl. intros [<- | [<- | [<- | [<- | [<- | []]]]]]; eexists; simpl; eauto 6.
Qed.

(** X7. When each of the seven questions of [main] is answered
    acceptably at the first try (a sex, weight unit, height unit and
    activity among the choices once stripped and lowered; an age, a
    weight and a height that parse), [main] returns after exactly those
    seven lines, whatever the weight and the height are and whatever
    the age is as long as its fivefold converts to a float (no range is
    checked: the numbers go into the formulas as they are), and it has
    written
    the banner, the prompts with the chosen units, the activity legend
    and the report of BMR, TDEE (BMR times the multiplier of the
    activity), weight and height in both units, and the multiplier. *)
Theorem main_first_try
  (strip : string -> string)
  (int_of_str : string -> result Z) (float_of_str : string -> result float)
  (format_f : nat -> float -> string)
  (sex_line age_line w_unit_line weight_line h_unit_line height_line activity_line : string)
  (rest out : list string) (age : Z) (weight height : float) :
  let sex := lower (strip sex_line) in
  let w_unit := lower (strip w_unit_line) in
  let h_unit := lower (strip h_unit_line) in
  let activity := lower (strip activity_line) in
  let person := firingrange.mkPerson sex age weight w_unit height h_unit activity in
  let w_kg := firingrange.weight_kg person in
  let h_cm := firingrange.height_cm person in
  In sex ["m"; "f"] ->
  int_of_str (strip age_line) = Ok age ->
  converts (5 * age) ->
  In w_unit ["kg"; "lb"] ->
  float_of_str (strip weight_line) = Ok weight ->
  In h_unit ["cm"; "in"] ->
  float_of_str (strip height_line) = Ok height ->
  In activity activity_keys ->
  exists bmr factor,
    firingrange.bmr_mifflin_st_jeor sex w_kg h_cm age = Ok bmr /\
    In (activity, factor) firingrange.ACTIVITY_FACTORS /\
    firingrange.main strip int_of_str float_of_str format_f
      (firingrange.mkConsole
         (sex_line :: age_line :: w_unit_line :: weight_line :: h_unit_line
            :: height_line :: activity_line :: rest) out)
    = (firingrange.Returned tt,
       firingrange.mkConsole rest
         (app out
          [ "=== Mifflin–St Jeor Daily Energy Expenditure Tool ===" ++ firingrange.nl;
            "Sex (m/f): ";
            "Age (years): ";
            "Is your weight in kg or lb? (kg/lb): ";
            "Weight (" ++ w_unit ++ "): ";
            "Is your height in cm or in? (cm/in): ";
            "Height (" ++ h_unit ++ "): ";
            (firingrange.nl ++ "Activity levels:") ++ firingrange.nl;
            "  sedentary = little/no exercise" ++ firingrange.nl;
            "  light     = 1–3 days/wk" ++ firingrange.nl;
            "  moderate  = 3–5 days/wk" ++ firingrange.nl;
            "  very      = 6–7 days/wk" ++ firingrange.nl;
            "  athlete   = very hard exercise/physical job" ++ firingrange.nl;
            "Choose activity (sedentary/light/moderate/very/athlete): ";
            (firingrange.nl ++ "--- Results ---") ++ firingrange.nl;
            ("BMR (kcal/day): " ++ format_f 0%nat bmr) ++ firingrange.nl;
            ("TDEE (kcal/day): " ++ format_f 0%nat (bmr * factor)) ++ firingrange.nl;
            (firingrange.nl ++ "For reference:") ++ firingrange.nl;
            ("  Weight: " ++ format_f 1%nat w_kg ++ " kg  ("
               ++ format_f 1%nat (w_kg / 0.45359237) ++ " lb)") ++ firingrange.nl;
            ("  Height: " ++ format_f 1%nat h_cm ++ " cm  ("
               ++ format_f 1%nat (h_cm / 2.54) ++ " in)") ++ firingrange.nl;
            ("  Activity factor used: " ++ format_f 3%nat factor) ++ firingrange.nl ])).
Proof.
  intros sex w_unit h_unit activity person w_kg h_cm
    Hsex Hage Hconv Hwu Hweight Hhu Hheight Hact.
  destruct (bmr_returns sex w_kg h_cm age Hsex Hconv) as [bmr Hbmr].
  destruct (key_in_table activity Hact) as [factor Hfactor].
  destruct (tdee_in_table bmr activity factor Hfactor) as [Htdee Hget].
  exists bmr, factor. split; [exact Hbmr|]. split; [exact Hfactor|].
  unfold firingrange.main, firingrange.io_bind at 1, firingrange.print at 1.
  cbn [firingrange.stdin firingrange.stdout].
  unfold firingrange.io_bind at 1.
  rewrite (ask_choice_first strip _ ["m"; "f"]) by exact Hsex.
  unfold firingrange.io_bind at 1. rewrite (ask_int_first strip int_of_str _ _ _ _ age Hage).
  unfold firingrange.io_bind at 1.
  rewrite (ask_choice_first strip _ ["kg"; "lb"]) by exact Hwu.
  unfold firingrange.io_bind at 1.
  rewrite (ask_float_first strip float_of_str _ _ _ _ weight Hweight).
  unfold firingrange.io_bind at 1.
  rewrite (ask_choice_first strip _ ["cm"; "in"]) by exact Hhu.
  unfold firingrange.io_bind at 1.
  rewrite (ask_float_first strip float_of_str _ _ _ _ height Hheight).
  do 6 (unfold firingrange.io_bind at 1, firingrange.print at 1;
        cbn [firingrange.stdin firingrange.stdout]).
  unfold firingrange.io_bind at 1.
  rewrite (ask_choice_first strip _ (dict_keys firingrange.ACTIVITY_FACTORS))
    by exact Hact.
  cbv zeta. cbn [firingrange.sex firingrange.age firingrange.activity].
  fold sex w_unit h_unit activity. fold person. fold w_kg h_cm.
  unfold firingrange.io_bind at 1. rewrite Hbmr. cbn [firingrange.io_lift].
  unfold firingrange.io_bind at 1. rewrite Htdee. cbn [firingrange.io_lift].
  rewrite kg_to_lbs_returns, cm_to_inches_returns, Hget.
  unfold firingrange.io_bind, firingrange.print, firingrange.io_lift.
  cbn [firingrange.stdin firingrange.stdout].
  repeat rewrite <- app_assoc. reflexivity.
Qed.

Lemma main_first_try_witness :
  exists bmr factor,
    firingrange.bmr_mifflin_st_jeor "m" 70 175 25 = Ok bmr /\
    In ("sedentary", factor) firingrange.ACTIVITY_FACTORS /\
    fst (Sample.main
           (Sample.typed ["M"; "25"; " kg "; "70"; "CM"; "175"; "Sedentary"; "more"]))
    = firingrange.Returned tt.
Proof.
  destruct (main_first_try Sample.strip Sample.int_of_str Sample.float_of_str
              Sample.format_f "M" "25" " kg " "70" "CM" "175" "Sedentary"
              ["more"] [] 25 70 175)
    as (bmr & factor & Hbmr & Hfactor & Hmain).
  - vm_compute. auto.
  - reflexivity.
  - apply converts_small. vm_compute. reflexivity.
  - vm_compute. auto.
  - reflexivity.
  - vm_compute. auto.
  - reflexivity.
  - vm_compute. auto.
  - exists bmr, factor. split; [exact Hbmr|]. split; [exact Hfactor|].
    unfold Sample.main, Sample.typed. now rewrite Hmain.
Defined.

(* ================================================================== *)
(** * More on the core *)
(* ================================================================== *)

(** X8. The two conversions of each pair undo each other in both
    orders and on every input, zero and negative numbers included. *)
Theorem conversions_inverse (x : float) :
  (exists r, firingrange.kg_to_lbs x = Ok r /\ firingrange.lbs_to_kg r == x) /\
  (exists r, firingrange.kg_to_lbs (firingrange.lbs_to_kg x) = Ok r /\ r == x) /\
  (exists r, firingrange.cm_to_inches x = Ok r /\ firingrange.inches_to_cm r == x) /\
  (exists r, firingrange.cm_to_inches (firingrange.inches_to_cm x) = Ok r /\ r == x).
Proof.
  unfold float in x. split; [|split; [|split]].
  - exists (x / 0.45359237). split; [apply kg_to_lbs_returns|].
    unfold firingrange.lbs_to_kg. field.
  - exists (firingrange.lbs_to_kg x / 0.45359237). split; [apply kg_to_lbs_returns|].
    unfold firingrange.lbs_to_kg. field.
  - exists (x / 2.54). split; [apply cm_to_inches_returns|].
    unfold firingrange.inches_to_cm. field.
  - exists (firingrange.inches_to_cm x / 2.54). split; [apply cm_to_inches_returns|].
    unfold firingrange.inches_to_cm. field.
Qed.

(** X9. The four conversions keep the order of their inputs: a larger
    weight or length is a larger one after conversion, and conversely. *)
Theorem conversions_increasing (x y : float) :
  (x < y <-> firingrange.lbs_to_kg x < firingrange.lbs_to_kg y) /\
  (x < y <-> firingrange.inches_to_cm x < firingrange.inches_to_cm y) /\
  (exists rx ry, firingrange.kg_to_lbs x = Ok rx /\ firingrange.kg_to_lbs y = Ok ry /\
                 (x < y <-> rx < ry)) /\
  (exists rx ry, firingrange.cm_to_inches x = Ok rx /\ firingrange.cm_to_inches y = Ok ry /\
                 (x < y <-> rx < ry)).
Proof.
  split; [|split; [|split]].
  - unfold firingrange.lbs_to_kg. split; intros H; nra.
  - unfold firingrange.inches_to_cm. split; intros H; nra.
  - exists (x / 0.45359237), (y / 0.45359237).
    split; [apply kg_to_lbs_returns|]. split; [apply kg_to_lbs_returns|].
    assert (Ex : (x / 0.45359237) * 0.45359237 == x) by field.
    assert (Ey : (y / 0.45359237) * 0.45359237 == y) by field.
    split; intros H; nra.
  - exists (x / 2.54), (y / 2.54).
    split; [apply cm_to_inches_returns|]. split; [apply cm_to_inches_returns|].
    assert (Ex : (x / 2.54) * 2.54 == x) by field.
    assert (Ey : (y / 2.54) * 2.54 == y) by field.
    split; intros H; nra.
Qed.

Lemma conversions_increasing_witness :
  firingrange.lbs_to_kg 150 < firingrange.lbs_to_kg 151.
Proof.
  apply (proj1 (proj1 (conversions_increasing 150 151))). reflexivity.
Defined.

Lemma bmr_male (sex : string) (w h : float) (a : Z) :
  In sex ["m"; "M"] -> converts (5 * a) ->
  firingrange.bmr_mifflin_st_jeor sex w h a
  = Ok (10 * w + 6.25 * h - inject_Z (5 * a) + 5).
Proof.
  intros Hs Ha.
  assert (Hm : lower sex = "m") by (destruct Hs as [<- | [<- | []]]; reflexivity).
  destruct (bmr_cases sex w h a Ha) as [[_ E] | [[Hf _] | (Nm & _)]];
    [exact E | congruence | congruence].
Qed.

Lemma bmr_female (sex : string) (w h : float) (a : Z) :
  In sex ["f"; "F"] -> converts (5 * a) ->
  firingrange.bmr_mifflin_st_jeor sex w h a
  = Ok (10 * w + 6.25 * h - inject_Z (5 * a) - 161).
Proof.
  intros Hs Ha.
  assert (Hf : lower sex = "f") by (destruct Hs as [<- | [<- | []]]; reflexivity).
  destruct (bmr_cases sex w h a Ha) as [[Hm _] | [[_ E] | (_ & Nf & _)]];
    [congruence | exact E | congruence].
Qed.

(** Where the function returns, the age term has converted. *)
Lemma bmr_returns_converts (sex : string) (w h : float) (a : Z) (r : float) :
  firingrange.bmr_mifflin_st_jeor sex w h a = Ok r -> converts (5 * a).
Proof.
  intros H. destruct (converts_dec (5 * a)) as [Ha|Ha]; [exact Ha|].
  destruct (bmr_steps sex w h a) as [[_ E] | [[_ E] | (_ & _ & E)]];
    rewrite E in H; try rewrite (of_int_overflow _ Ha) in H; discriminate.
Qed.

Lemma bmr_value (sex : string) (w h : float) (a : Z) (r : float) :
  firingrange.bmr_mifflin_st_jeor sex w h a = Ok r ->
  exists offset, (offset == 5 \/ offset == -161) /\
    forall w' h' a', converts (5 * a') -> exists r',
      firingrange.bmr_mifflin_st_jeor sex w' h' a' = Ok r' /\
      r' == 10 * w' + 6.25 * h' - 5 * inject_Z a' + offset.
Proof.
  intros H. pose proof (bmr_returns_converts _ _ _ _ _ H) as Ha.
  destruct (bmr_cases sex w h a Ha) as [[Hm _] | [[Hf _] | (_ & _ & E)]].
  - exists 5. split; [left; reflexivity|]. intros w' h' a' Ha'.
    destruct (bmr_cases sex w' h' a' Ha') as [[_ E] | [[Hf _] | (Nm & _)]];
      [| congruence | congruence].
    eexists. split; [exact E|]. now rewrite base_int_term.
  - exists (-161). split; [right; reflexivity|]. intros w' h' a' Ha'.
    destruct (bmr_cases sex w' h' a' Ha') as [[Hm E] | [[_ E] | (_ & Nf & _)]];
      [congruence | | congruence].
    eexists. split; [exact E|]. rewrite base_int_term. ring.
  - rewrite E in H. discriminate.
Qed.

(** X10. Over exact arithmetic, for the same weight and height and the
    same age, one whose fivefold converts to a float, the BMR of a man
    is that of a woman plus 166, whatever the case of the two sex
    codes. *)
Theorem bmr_sex_gap (male female : string) (weight_kg height_cm : float) (age_years : Z) :
  In male ["m"; "M"] -> In female ["f"; "F"] -> converts (5 * age_years) ->
  exists rm rf,
    firingrange.bmr_mifflin_st_jeor male weight_kg height_cm age_years = Ok rm /\
    firingrange.bmr_mifflin_st_jeor female weight_kg height_cm age_years = Ok rf /\
    rm == rf + 166.
Proof.
  intros Hm Hf Ha.
  exists (10 * weight_kg + 6.25 * height_cm - inject_Z (5 * age_years) + 5),
         (10 * weight_kg + 6.25 * height_cm - inject_Z (5 * age_years) - 161).
  split; [now apply bmr_male|]. split; [now apply bmr_female|]. lra.
Qed.

Lemma bmr_sex_gap_witness :
  exists rm rf,
    firingrange.bmr_mifflin_st_jeor "M" 70 175 25 = Ok rm /\
    firingrange.bmr_mifflin_st_jeor "f" 70 175 25 = Ok rf /\
    rm == rf + 166.
Proof.
  apply (bmr_sex_gap "M" "f" 70 175 25);
    [simpl; auto | simpl; auto | apply converts_small; vm_compute; reflexivity].
Defined.

(** X11. Over exact arithmetic: where [bmr_mifflin_st_jeor] returns, it
    returns for the same sex code at every weight and height and every
    age whose fivefold converts to a float, and the result moves by
    10 per kilogram, 6.25 per centimetre and -5 per year: it grows with
    weight and height and falls with age. *)
Theorem bmr_increments
  (sex : string) (w h : float) (a : Z) (r : float) (dw dh : float) (da : Z) :
  firingrange.bmr_mifflin_st_jeor sex w h a = Ok r ->
  converts (5 * (a + da)) ->
  exists r',
    firingrange.bmr_mifflin_st_jeor sex (w + dw) (h + dh) (a + da) = Ok r' /\
    r' == r + 10 * dw + 6.25 * dh - 5 * inject_Z da.
Proof.
  intros H Hda. destruct (bmr_value sex w h a r H) as (offset & _ & Hall).
  destruct (Hall w h a (bmr_returns_converts _ _ _ _ _ H)) as (r0 & E0 & Hr0).
  assert (Er : r = r0) by congruence. subst r0.
  destruct (Hall (w + dw) (h + dh) (a + da)%Z Hda) as (r' & E' & Hr').
  exists r'. split; [exact E'|].
  rewrite Hr', Hr0, inject_Z_plus. ring.
Qed.

Lemma bmr_increments_witness :
  exists r',
    firingrange.bmr_mifflin_st_jeor "f" (60 + 1) (165 + 0) (30 + 10) = Ok r' /\
    r' == 1320.25 + 10 * 1 + 6.25 * 0 - 5 * inject_Z 10.
Proof.
  apply (bmr_increments "f" 60 165 30 1320.25 1 0 10);
    [reflexivity | apply converts_small; vm_compute; reflexivity].
Defined.

Lemma tdee_value (bmr : float) (key : string) (r : float) :
  firingrange.tdee_from_bmr bmr key = Ok r ->
  exists factor, In (lower key, factor) firingrange.ACTIVITY_FACTORS /\ r = bmr * factor.
Proof.
  intros H. unfold firingrange.tdee_from_bmr, dict_contains, dict_getitem in H.
  destruct (dict_get firingrange.ACTIVITY_FACTORS (lower key)) as [factor|] eqn:E;
    simpl in H; [|discriminate].
  injection H as <-. exists factor. split; [now apply dict_get_In | reflexivity].
Qed.

Lemma factor_range (key : string) (factor : float) :
  In (key, factor) firingrange.ACTIVITY_FACTORS -> 1.2 <= factor <= 1.9.
Proof.
  simpl. intros [E | [E | [E | [E | [E | []]]]]]; injection E as _ <-;
    split; discriminate.
Qed.

(** X12. Whenever [tdee_from_bmr] returns, and the BMR is not negative,
    the result lies between 1.2 and 1.9 times the BMR; so a TDEE is
    never below its BMR. *)
Theorem tdee_bounds (bmr : float) (activity_key : string) (r : float) :
  0 <= bmr ->
  firingrange.tdee_from_bmr bmr activity_key = Ok r ->
  1.2 * bmr <= r <= 1.9 * bmr /\ bmr <= r.
Proof.
  intros Hb H. apply tdee_value in H as (factor & Hin & ->).
  apply factor_range in Hin. unfold float in *. nra.
Qed.

Lemma tdee_bounds_witness :
  1.2 * 1500 <= 1500 * 1.55 <= 1.9 * 1500 /\ 1500 <= 1500 * 1.55.
Proof.
  apply (tdee_bounds 1500 "Moderate" (1500 * 1.55)).
  - discriminate.
  - reflexivity.
Defined.

(** X13. Over exact arithmetic, for a positive BMR, a key later in the
    Activity Table gives a strictly larger TDEE than a key earlier in
    it. *)
Theorem tdee_increasing_along_table
  (bmr : float) (i j : nat) (ki kj : string) (ri rj : float) :
  0 < bmr -> (i < j)%nat ->
  nth_error (dict_keys firingrange.ACTIVITY_FACTORS) i = Some ki ->
  nth_error (dict_keys firingrange.ACTIVITY_FACTORS) j = Some kj ->
  firingrange.tdee_from_bmr bmr ki = Ok ri ->
  firingrange.tdee_from_bmr bmr kj = Ok rj ->
  ri < rj.
Proof.
  intros Hb Hij Hi Hj Hri Hrj.
  assert (Lj : (j < 5)%nat).
  { apply (proj1 (nth_error_Some (dict_keys firingrange.ACTIVITY_FACTORS) j)).
    rewrite Hj. discriminate. }
  apply tdee_value in Hri as (fi & Hfi & ->).
  apply tdee_value in Hrj as (fj & Hfj & ->).
  apply (In_dict_get _ _ _ cli_keys_NoDup) in Hfi.
  apply (In_dict_get _ _ _ cli_keys_NoDup) in Hfj.
  destruct i as [|[|[|[|i]]]]; try lia;
    destruct j as [|[|[|[|[|j]]]]]; try lia;
    simpl in Hi, Hj; injection Hi as <-; injection Hj as <-;
    injection Hfi as <-; injection Hfj as <-; unfold float in *; nra.
Qed.

Lemma tdee_increasing_along_table_witness : 2000 * 1.375 < 2000 * 1.725.
Proof.
  apply (tdee_increasing_along_table 2000 1 3 "light" "very").
  - reflexivity.
  - lia.
  - reflexivity.
  - reflexivity.
  - reflexivity.
  - reflexivity.
Defined.

(* ================================================================== *)
(** * More on the windowed front end *)
(* ================================================================== *)

Lemma validate_age_fails (age : Z) (weight height : float) (w_unit h_unit : string) :
  ~ (14 <= age <= 90)%Z ->
  tdee_gui.validate age weight height w_unit h_unit
  = Raise (ValueError "Age must be between 14 and 90.").
Proof.
  intros H. unfold tdee_gui.validate.
  destruct ((14 <=? age)%Z && (age <=? 90)%Z) eqn:Ea; [|reflexivity].
  apply age_check in Ea. contradiction.
Qed.

Lemma validate_age_passes (age : Z) (weight height : float) (w_unit h_unit : string) :
  (14 <= age <= 90)%Z ->
  tdee_gui.validate age weight height w_unit h_unit
  = tdee_gui.validate 14 weight height w_unit h_unit.
Proof.
  intros H. apply age_check in H. unfold tdee_gui.validate. now rewrite H.
Qed.

(** X14. The validator reports the first violated bound in the order
    age, weight, height: an age out of range gives the age message
    whatever the rest; with the age in range, a weight out of the range
    of its unit gives the weight message whatever the height; a height
    message is given only when age and weight have passed. *)
Theorem validate_reports_first_violation
  (age : Z) (weight height : float) (w_unit h_unit : string) :
  (~ (14 <= age <= 90)%Z ->
   tdee_gui.validate age weight height w_unit h_unit
   = Raise (ValueError "Age must be between 14 and 90.")) /\
  ((14 <= age <= 90)%Z -> w_unit = "kg" -> ~ 30 <= weight <= 300 ->
   tdee_gui.validate age weight height w_unit h_unit
   = Raise (ValueError "Weight in kg must be between 30 and 300.")) /\
  ((14 <= age <= 90)%Z -> w_unit = "lb" -> ~ 66 <= weight <= 660 ->
   tdee_gui.validate age weight height w_unit h_unit
   = Raise (ValueError "Weight in lb must be between 66 and 660.")) /\
  ((14 <= age <= 90)%Z ->
   (w_unit = "kg" -> 30 <= weight <= 300) -> (w_unit = "lb" -> 66 <= weight <= 660) ->
   h_unit = "cm" -> ~ 120 <= height <= 220 ->
   tdee_gui.validate age weight height w_unit h_unit
   = Raise (ValueError "Height in cm must be between 120 and 220.")) /\
  ((14 <= age <= 90)%Z ->
   (w_unit = "kg" -> 30 <= weight <= 300) -> (w_unit = "lb" -> 66 <= weight <= 660) ->
   h_unit = "in" -> ~ 47 <= height <= 87 ->
   tdee_gui.validate age weight height w_unit h_unit
   = Raise (ValueError "Height in inches must be between 47 and 87.")).
Proof.
  split; [apply validate_age_fails|].
  split; [|split; [|split]].
  - intros Ha -> Hw. rewrite validate_age_passes by exact Ha.
    unfold tdee_gui.validate. cbn [Z.leb Z.compare Pos.compare Pos.compare_cont andb negb].
    assert (E : String.eqb "kg" "kg" && negb (Qle_bool 30 weight && Qle_bool weight 300)
                = true) by (now apply unit_check_fires).
    now rewrite E.
  - intros Ha -> Hw. rewrite validate_age_passes by exact Ha.
    unfold tdee_gui.validate. cbn [Z.leb Z.compare Pos.compare Pos.compare_cont andb negb].
    assert (E : String.eqb "lb" "lb" && negb (Qle_bool 66 weight && Qle_bool weight 660)
                = true) by (now apply unit_check_fires).
    change (String.eqb "lb" "kg") with false. cbn [andb]. now rewrite E.
  - intros Ha Hkg Hlb -> Hh. rewrite validate_age_passes by exact Ha.
    unfold tdee_gui.validate. cbn [Z.leb Z.compare Pos.compare Pos.compare_cont andb negb].
    apply unit_check_passes in Hkg. apply unit_check_passes in Hlb.
    rewrite Hkg, Hlb.
    assert (E : String.eqb "cm" "cm" && negb (Qle_bool 120 height && Qle_bool height 220)
                = true) by (now apply unit_check_fires).
    now rewrite E.
  - intros Ha Hkg Hlb -> Hh. rewrite validate_age_passes by exact Ha.
    unfold tdee_gui.validate. cbn [Z.leb Z.compare Pos.compare Pos.compare_cont andb negb].
    apply unit_check_passes in Hkg. apply unit_check_passes in Hlb.
    rewrite Hkg, Hlb.
    assert (E : String.eqb "in" "in" && negb (Qle_bool 47 height && Qle_bool height 87)
                = true) by (now apply unit_check_fires).
    change (String.eqb "in" "cm") with false. cbn [andb]. now rewrite E.
Qed.

Lemma validate_reports_first_violation_witness :
  tdee_gui.validate 95 1000 10 "kg" "cm"
  = Raise (ValueError "Age must be between 14 and 90.") /\
  tdee_gui.validate 40 1000 10 "lb" "cm"
  = Raise (ValueError "Weight in lb must be between 66 and 660.") /\
  tdee_gui.validate 40 100 10 "lb" "in"
  = Raise (ValueError "Height in inches must be between 47 and 87.").
Proof.
  destruct (validate_reports_first_violation 95 1000 10 "kg" "cm") as (H1 & _).
  destruct (validate_reports_first_violation 40 1000 10 "lb" "cm") as (_ & _ & H3 & _).
  destruct (validate_reports_first_violation 40 100 10 "lb" "in") as (_ & _ & _ & _ & H5).
  split; [apply H1; lia|]. split.
  - apply H3; [lia | reflexivity |]. intros [_ H]. revert H. vm_compute. auto.
  - apply H5; [lia | discriminate | | reflexivity |].
    + intros _. split; discriminate.
    + intros [H _]. revert H. vm_compute. auto.
Defined.

(** X15. A weight unit that is neither "kg" nor "lb" (for instance "KG":
    the test is case-sensitive) switches the weight check off, so that
    the outcome of the validator does not depend on the weight, and the
    Person then converts the weight as pounds; likewise a height unit
    that is neither "cm" nor "in" switches the height check off and the
    height is converted as inches. *)
Theorem unrecognized_unit_unchecked
  (sex activity : string) (age : Z) (weight weight' height height' : float)
  (w_unit h_unit : string) :
  (w_unit <> "kg" -> w_unit <> "lb" ->
   tdee_gui.validate age weight height w_unit h_unit
   = tdee_gui.validate age weight' height w_unit h_unit /\
   tdee_gui.weight_kg (tdee_gui.mkPerson sex age weight w_unit height h_unit activity)
   = tdee_gui.lbs_to_kg weight) /\
  (h_unit <> "cm" -> h_unit <> "in" ->
   tdee_gui.validate age weight height w_unit h_unit
   = tdee_gui.validate age weight height' w_unit h_unit /\
   tdee_gui.height_cm (tdee_gui.mkPerson sex age weight w_unit height h_unit activity)
   = tdee_gui.inches_to_cm height).
Proof.
  split; intros H1 H2; apply String.eqb_neq in H1; apply String.eqb_neq in H2.
  - unfold tdee_gui.validate, tdee_gui.weight_kg. cbn [tdee_gui.weight_unit tdee_gui.weight].
    rewrite H1, H2. split; reflexivity.
  - unfold tdee_gui.validate, tdee_gui.height_cm. cbn [tdee_gui.height_unit tdee_gui.height].
    rewrite H1, H2. split; reflexivity.
Qed.

Lemma unrecognized_unit_unchecked_witness :
  tdee_gui.validate 40 70 175 "KG" "cm" = tdee_gui.validate 40 100000 175 "KG" "cm" /\
  tdee_gui.weight_kg (tdee_gui.mkPerson "m" 40 70 "KG" 175 "cm" "x")
  = tdee_gui.lbs_to_kg 70.
Proof.
  apply (proj1 (unrecognized_unit_unchecked "m" "x" 40 70 100000 175 175 "KG" "cm"));
    discriminate.
Defined.

(** An age the validator accepts converts to a float. *)
Lemma converts_age (age : Z) : (14 <= age <= 90)%Z -> converts (5 * age).
Proof.
  intros H. apply converts_small. change (2 ^ 64)%Z with 18446744073709551616%Z. lia.
Qed.

Lemma age_as_float (age : Z) : (14 <= age <= 90)%Z -> 14 <= inject_Z age <= 90.
Proof.
  intros [H1 H2]. split.
  - change 14 with (inject_Z 14). now rewrite <- Zle_Qle.
  - change 90 with (inject_Z 90). now rewrite <- Zle_Qle.
Qed.

(** X16. Once the validator has accepted an age, weight and height
    given in recognized units, the normalized weight lies in
    [29.93, 300] kg and the normalized height in [119.38, 220.98] cm, and
    for a recognized sex code the BMR computed from them lies strictly
    between 434 and 4317: the form never shows a zero or negative
    BMR. *)
Theorem validated_bmr_bounds
  (sex activity : string) (age : Z) (weight height : float) (w_unit h_unit : string) :
  tdee_gui.validate age weight height w_unit h_unit = Ok tt ->
  In w_unit ["kg"; "lb"] -> In h_unit ["cm"; "in"] ->
  In sex ["m"; "M"; "f"; "F"] ->
  let person := tdee_gui.mkPerson sex age weight w_unit height h_unit activity in
  29.93 <= tdee_gui.weight_kg person <= 300 /\
  119.38 <= tdee_gui.height_cm person <= 220.98 /\
  exists bmr,
    tdee_gui.bmr_mifflin_st_jeor sex (tdee_gui.weight_kg person)
      (tdee_gui.height_cm person) age = Ok bmr /\
    434 < bmr < 4317.
Proof.
  intros Hv Hwu Hhu Hsex person.
  destruct (validate_outcome age weight height w_unit h_unit)
    as [[_ (Ha & Hkg & Hlb & Hcm & Hin)] | (msg & E & _)]; [|congruence].
  pose proof (converts_age age Ha) as Hc.
  apply age_as_float in Ha.
  assert (Hw : 29.93 <= tdee_gui.weight_kg person <= 300).
  { unfold person, tdee_gui.weight_kg, tdee_gui.lbs_to_kg.
    cbn [tdee_gui.weight_unit tdee_gui.weight].
    destruct Hwu as [<- | [<- | []]]; simpl String.eqb; cbv iota.
    - specialize (Hkg eq_refl). unfold float in *. lra.
    - specialize (Hlb eq_refl). unfold float in *. lra. }
  assert (Hh : 119.38 <= tdee_gui.height_cm person <= 220.98).
  { unfold person, tdee_gui.height_cm, tdee_gui.inches_to_cm.
    cbn [tdee_gui.height_unit tdee_gui.height].
    destruct Hhu as [<- | [<- | []]]; simpl String.eqb; cbv iota.
    - specialize (Hcm eq_refl). unfold float in *. lra.
    - specialize (Hin eq_refl). unfold float in *. lra. }
  split; [exact Hw|]. split; [exact Hh|].
  change tdee_gui.bmr_mifflin_st_jeor with firingrange.bmr_mifflin_st_jeor.
  set (w_kg := tdee_gui.weight_kg person) in *.
  set (h_cm := tdee_gui.height_cm person) in *.
  assert (Hm : In sex ["m"; "M"] \/ In sex ["f"; "F"]) by (simpl in *; tauto).
  destruct Hm as [Hm | Hf].
  - rewrite (bmr_male _ w_kg h_cm age Hm Hc). eexists. split; [reflexivity|].
    rewrite base_int_term. unfold float in *. lra.
  - rewrite (bmr_female _ w_kg h_cm age Hf Hc). eexists. split; [reflexivity|].
    rewrite base_int_term. unfold float in *. lra.
Qed.

Lemma validated_bmr_bounds_witness :
  exists bmr,
    tdee_gui.bmr_mifflin_st_jeor "F"
      (tdee_gui.weight_kg (tdee_gui.mkPerson "F" 90 66 "lb" 47 "in" "x"))
      (tdee_gui.height_cm (tdee_gui.mkPerson "F" 90 66 "lb" 47 "in" "x")) 90 = Ok bmr /\
    434 < bmr < 4317.
Proof.
  apply (validated_bmr_bounds "F" "x" 90 66 47 "lb" "in").
  - reflexivity.
  - simpl. auto.
  - simpl. auto.
  - simpl. auto.
Defined.

Lemma validate_accepts (age : Z) (weight height : float) (w_unit h_unit : string) :
  tdee_gui.validate age weight height w_unit h_unit = Ok tt <->
  in_range age weight height w_unit h_unit.
Proof.
  destruct (validate_outcome age weight height w_unit h_unit)
    as [[-> Hin] | (msg & -> & Hv)].
  - tauto.
  - apply violated_not_in_range in Hv. split; [discriminate | tauto].
Qed.

Lemma gui_bmr_returns_iff (sex : string) (w h : float) (a : Z) :
  converts (5 * a) ->
  (returns (tdee_gui.bmr_mifflin_st_jeor sex w h a) <-> In sex ["m"; "M"; "f"; "F"]).
Proof.
  intros Ha.
  change tdee_gui.bmr_mifflin_st_jeor with firingrange.bmr_mifflin_st_jeor.
  rewrite sex_codes. unfold returns.
  destruct (bmr_cases sex w h a Ha) as [[Hm ->] | [[Hf ->] | (Nm & Nf & ->)]].
  - split; eauto.
  - split; eauto.
  - split; [intros [r Hr]; discriminate | tauto].
Qed.

Lemma gui_factor_returns_iff (key : string) :
  returns (dict_getitem tdee_gui.ACTIVITY_FACTORS key) <->
  In key (dict_keys tdee_gui.ACTIVITY_FACTORS).
Proof.
  rewrite <- dict_contains_true. unfold returns, dict_getitem, dict_contains.
  destruct (dict_get tdee_gui.ACTIVITY_FACTORS key).
  - split; eauto.
  - split; [intros [r Hr]; discriminate | discriminate].
Qed.

Section FormMore.

Variable int_of_str : string -> result Z.
Variable float_of_str : string -> result float.
Variable format_f : nat -> float -> string.
Variable repr : string -> string.

Let compute_try := tdee_gui.compute_try int_of_str float_of_str format_f.
Let compute := tdee_gui.compute int_of_str float_of_str format_f repr.

(** The [try] body returns exactly when the three fields parse, the
    validator accepts them, the sex code is recognized and the activity
    is a key of the table. *)
Lemma compute_try_returns_iff (app : tdee_gui.TDEEApp) :
  (exists app', compute_try app = (Ok tt, app')) <->
  exists age weight height,
    int_of_str (tdee_gui.age_var app) = Ok age /\
    float_of_str (tdee_gui.weight_var app) = Ok weight /\
    float_of_str (tdee_gui.height_var app) = Ok height /\
    in_range age weight height (tdee_gui.weight_unit_var app) (tdee_gui.height_unit_var app) /\
    In (tdee_gui.sex_var app) ["m"; "M"; "f"; "F"] /\
    In (tdee_gui.activity_var app) (dict_keys tdee_gui.ACTIVITY_FACTORS).
Proof.
  unfold compute_try, tdee_gui.compute_try, tdee_gui.mbind, tdee_gui.get, tdee_gui.lift.
  destruct (int_of_str (tdee_gui.age_var app)) as [age|e1].
  2:{ split; [intros [? ?]; discriminate | intros (? & ? & ? & ? & _); discriminate]. }
  destruct (float_of_str (tdee_gui.weight_var app)) as [weight|e2].
  2:{ split; [intros [? ?]; discriminate | intros (? & ? & ? & _ & ? & _); discriminate]. }
  destruct (float_of_str (tdee_gui.height_var app)) as [height|e3].
  2:{ split; [intros [? ?]; discriminate
             | intros (? & ? & ? & _ & _ & ? & _); discriminate]. }
  pose proof (validate_accepts age weight height
                (tdee_gui.weight_unit_var app) (tdee_gui.height_unit_var app)) as Hv.
  destruct (tdee_gui.validate _ _ _ _ _) as [[]|e4].
  2:{ split; [intros [? ?]; discriminate|].
      intros (a & w & h & [= <-] & [= <-] & [= <-] & Hr & _).
      apply Hv in Hr. discriminate. }
  cbv zeta. cbn [tdee_gui.sex tdee_gui.age].
  assert (Hc : converts (5 * age)).
  { apply converts_age. now destruct (proj1 Hv eq_refl) as [Hage _]. }
  match goal with
  | |- context [tdee_gui.bmr_mifflin_st_jeor ?s ?w ?h ?a] =>
      pose proof (gui_bmr_returns_iff s w h a Hc) as Hb;
      destruct (tdee_gui.bmr_mifflin_st_jeor s w h a) as [bmr|e5]
  end.
  2:{ split; [intros [? ?]; discriminate|].
      intros (a & w & h & _ & _ & _ & _ & Hs & _).
      apply Hb in Hs as [r Hr]. discriminate. }
  pose proof (gui_factor_returns_iff (tdee_gui.activity_var app)) as Hf.
  destruct (dict_getitem _ _) as [factor|e6].
  2:{ split; [intros [? ?]; discriminate|].
      intros (a & w & h & _ & _ & _ & _ & _ & Hk).
      apply Hf in Hk as [r Hr]. discriminate. }
  rewrite gui_kg_to_lbs_returns, gui_cm_to_inches_returns.
  split.
  - intros _. exists age, weight, height.
    do 3 (split; [reflexivity|]). split; [now apply Hv|]. split.
    + apply Hb. now exists bmr.
    + apply Hf. now exists factor.
  - intros _. eexists. reflexivity.
Qed.

(** The [try] body reads the fields and writes the labels: what it does
    is the same whatever the labels held. *)
Lemma compute_try_ignores_labels
  (s a w wu h hu act l1 l2 l3 m1 m2 m3 : string) (st : tdee_gui.TDEEApp) :
  compute_try (tdee_gui.mkApp s a w wu h hu act l1 l2 l3) = (Ok tt, st) ->
  compute_try (tdee_gui.mkApp s a w wu h hu act m1 m2 m3) = (Ok tt, st).
Proof.
  unfold compute_try, tdee_gui.compute_try, tdee_gui.mbind, tdee_gui.get, tdee_gui.lift.
  cbn [tdee_gui.sex_var tdee_gui.age_var tdee_gui.weight_var tdee_gui.weight_unit_var
       tdee_gui.height_var tdee_gui.height_unit_var tdee_gui.activity_var].
  destruct (int_of_str a) as [age|e1]; [|discriminate].
  destruct (float_of_str w) as [weight|e2]; [|discriminate].
  destruct (float_of_str h) as [height|e3]; [|discriminate].
  destruct (tdee_gui.validate _ _ _ _ _) as [[]|e4]; [|discriminate].
  cbv zeta.
  destruct (tdee_gui.bmr_mifflin_st_jeor _ _ _ _) as [bmr|e5]; [|discriminate].
  destruct (dict_getitem _ _) as [factor|e6]; [|discriminate].
  rewrite gui_kg_to_lbs_returns, gui_cm_to_inches_returns.
  intros [= <-]. reflexivity.
Qed.

Lemma compute_try_keeps_fields (app app' : tdee_gui.TDEEApp) (r : result unit) :
  compute_try app = (r, app') ->
  exists l1 l2 l3,
    app' = tdee_gui.mkApp (tdee_gui.sex_var app) (tdee_gui.age_var app)
             (tdee_gui.weight_var app) (tdee_gui.weight_unit_var app)
             (tdee_gui.height_var app) (tdee_gui.height_unit_var app)
             (tdee_gui.activity_var app) l1 l2 l3.
Proof.
  intros E. destruct r as [[]|e].
  - apply compute_try_returns in E
      as (w_kg & h_cm & bmr & factor & w_lb & h_in & _ & _ & _ & ->).
    do 3 eexists. reflexivity.
  - apply compute_try_raises_early in E as ->. destruct app. do 3 eexists. reflexivity.
Qed.

End FormMore.

(** X17. The Compute action shows no error dialog exactly when the age
    field parses as an integer, the weight and height fields parse as
    numbers, the validator's ranges hold for them, the sex selector
    holds 'm' or 'f' in either case, and the activity selector holds a
    key of the Activity Table. *)
Theorem compute_succeeds_iff
  (int_of_str : string -> result Z) (float_of_str : string -> result float)
  (format_f : nat -> float -> string) (repr : string -> string)
  (app : tdee_gui.TDEEApp) :
  snd (tdee_gui.compute int_of_str float_of_str format_f repr app) = None <->
  exists age weight height,
    int_of_str (tdee_gui.age_var app) = Ok age /\
    float_of_str (tdee_gui.weight_var app) = Ok weight /\
    float_of_str (tdee_gui.height_var app) = Ok height /\
    in_range age weight height (tdee_gui.weight_unit_var app) (tdee_gui.height_unit_var app) /\
    In (tdee_gui.sex_var app) ["m"; "M"; "f"; "F"] /\
    In (tdee_gui.activity_var app) (dict_keys tdee_gui.ACTIVITY_FACTORS).
Proof.
  rewrite <- (compute_try_returns_iff int_of_str float_of_str format_f).
  unfold tdee_gui.compute.
  destruct (tdee_gui.compute_try int_of_str float_of_str format_f app)
    as [[[]|e] app']; simpl.
  - split; [intros _; now exists app' | reflexivity].
  - split; [destruct e; discriminate | intros [? ?]; discriminate].
Qed.

Lemma compute_succeeds_iff_witness :
  snd (Sample.compute (Sample.filled "F" "90" "66" "175")) = None.
Proof.
  apply (proj2 (compute_succeeds_iff Sample.int_of_str Sample.float_of_str
                  Sample.format_f Sample.repr (Sample.filled "F" "90" "66" "175"))).
  exists 90%Z, 66, 175.
  do 3 (split; [reflexivity|]). split.
  - unfold in_range. cbn [tdee_gui.weight_unit_var tdee_gui.height_unit_var Sample.filled].
    repeat split; try lia; try discriminate.
  - split; simpl; auto.
Defined.

(** X18. The Compute action never writes to the seven input fields:
    whether it succeeds or fails, sex, age, weight, weight unit, height,
    height unit and activity are afterwards what they were. *)
Theorem compute_keeps_fields
  (int_of_str : string -> result Z) (float_of_str : string -> result float)
  (format_f : nat -> float -> string) (repr : string -> string)
  (app : tdee_gui.TDEEApp) :
  let app' := fst (tdee_gui.compute int_of_str float_of_str format_f repr app) in
  tdee_gui.sex_var app' = tdee_gui.sex_var app /\
  tdee_gui.age_var app' = tdee_gui.age_var app /\
  tdee_gui.weight_var app' = tdee_gui.weight_var app /\
  tdee_gui.weight_unit_var app' = tdee_gui.weight_unit_var app /\
  tdee_gui.height_var app' = tdee_gui.height_var app /\
  tdee_gui.height_unit_var app' = tdee_gui.height_unit_var app /\
  tdee_gui.activity_var app' = tdee_gui.activity_var app.
Proof.
  intros app'. unfold app'. rewrite compute_state.
  destruct (tdee_gui.compute_try int_of_str float_of_str format_f app) as [r st] eqn:E.
  apply compute_try_keeps_fields in E as (l1 & l2 & l3 & ->).
  repeat split.
Qed.

(** X19. Pressing Compute twice is the same as pressing it once: the
    second press leaves the form as the first left it and shows the
    same dialog, or none. *)
Theorem compute_idempotent
  (int_of_str : string -> result Z) (float_of_str : string -> result float)
  (format_f : nat -> float -> string) (repr : string -> string)
  (app : tdee_gui.TDEEApp) :
  let compute := tdee_gui.compute int_of_str float_of_str format_f repr in
  compute (fst (compute app)) = compute app.
Proof.
  intros compute. unfold compute, tdee_gui.compute.
  destruct (tdee_gui.compute_try int_of_str float_of_str format_f app)
    as [[[]|e] st] eqn:E.
  - cbn [fst].
    destruct (compute_try_keeps_fields _ _ _ _ _ _ E) as (l1 & l2 & l3 & Est).
    destruct app as [s a w wu h hu act k1 k2 k3].
    cbn [tdee_gui.sex_var tdee_gui.age_var tdee_gui.weight_var tdee_gui.weight_unit_var
         tdee_gui.height_var tdee_gui.height_unit_var tdee_gui.activity_var] in Est.
    apply (compute_try_ignores_labels _ _ _ _ _ _ _ _ _ _ _ _ _ l1 l2 l3) in E.
    rewrite <- Est in E. now rewrite E.
  - apply compute_try_raises_early in E as Est. subst st.
    destruct e; cbn [fst]; now rewrite E.
Qed.

Lemma parse_ok_steps
  (int_of_str : string -> result Z) (float_of_str : string -> result float)
  (format_f : nat -> float -> string) (app : tdee_gui.TDEEApp)
  (age : Z) (weight height : float) :
  int_of_str (tdee_gui.age_var app) = Ok age ->
  float_of_str (tdee_gui.weight_var app) = Ok weight ->
  float_of_str (tdee_gui.height_var app) = Ok height ->
  tdee_gui.validate age weight height
    (tdee_gui.weight_unit_var app) (tdee_gui.height_unit_var app) = Ok tt ->
  In (tdee_gui.sex_var app) ["m"; "M"; "f"; "F"] ->
  ~ In (tdee_gui.activity_var app) (dict_keys tdee_gui.ACTIVITY_FACTORS) ->
  tdee_gui.compute_try int_of_str float_of_str format_f app
  = (Raise (KeyError (tdee_gui.activity_var app)), app).
Proof.
  intros Ha Hw Hh Hv Hs Hk.
  assert (Hc : converts (5 * age)).
  { apply converts_age. apply validate_accepts in Hv. now destruct Hv as [Hage _]. }
  unfold tdee_gui.compute_try, tdee_gui.mbind, tdee_gui.get, tdee_gui.lift.
  rewrite Ha, Hw, Hh, Hv. cbv zeta. cbn [tdee_gui.sex tdee_gui.age].
  match goal with
  | |- context [tdee_gui.bmr_mifflin_st_jeor ?s ?w ?h ?a] =>
      destruct (proj2 (gui_bmr_returns_iff s w h a Hc) Hs) as [bmr ->]
  end.
  apply dict_get_None in Hk. unfold dict_getitem. now rewrite Hk.
Qed.

(** X20. With fields that parse and pass the validator and a
    recognized sex code, an activity that is not a key of the Activity
    Table (the table is looked up with the label exactly as it stands,
    without lowering) ends the Compute action in the "Error" dialog, with
    the text of the KeyError after "Something went wrong:", and leaves
    the form as it was. *)
Theorem compute_unknown_activity
  (int_of_str : string -> result Z) (float_of_str : string -> result float)
  (format_f : nat -> float -> string) (repr : string -> string)
  (app : tdee_gui.TDEEApp) (age : Z) (weight height : float) :
  int_of_str (tdee_gui.age_var app) = Ok age ->
  float_of_str (tdee_gui.weight_var app) = Ok weight ->
  float_of_str (tdee_gui.height_var app) = Ok height ->
  tdee_gui.validate age weight height
    (tdee_gui.weight_unit_var app) (tdee_gui.height_unit_var app) = Ok tt ->
  In (tdee_gui.sex_var app) ["m"; "M"; "f"; "F"] ->
  ~ In (tdee_gui.activity_var app) (dict_keys tdee_gui.ACTIVITY_FACTORS) ->
  tdee_gui.compute int_of_str float_of_str format_f repr app
  = (app, Some (tdee_gui.showerror "Error"
                  ("Something went wrong:" ++ tdee_gui.newline
                   ++ repr (tdee_gui.activity_var app)))).
Proof.
  intros Ha Hw Hh Hv Hs Hk. unfold tdee_gui.compute.
  now rewrite (parse_ok_steps _ _ _ _ _ _ _ Ha Hw Hh Hv Hs Hk).
Qed.

Lemma compute_unknown_activity_witness :
  Sample.compute
    (tdee_gui.mkApp "m" "25" "70" "kg" "175" "cm" "sedentary (little/no exercise)"
                    "b" "t" "r")
  = (tdee_gui.mkApp "m" "25" "70" "kg" "175" "cm" "sedentary (little/no exercise)"
                    "b" "t" "r",
     Some (tdee_gui.showerror "Error"
             ("Something went wrong:" ++ tdee_gui.newline
              ++ "'sedentary (little/no exercise)'"))).
Proof.
  apply (compute_unknown_activity Sample.int_of_str Sample.float_of_str Sample.format_f
           Sample.repr
           (tdee_gui.mkApp "m" "25" "70" "kg" "175" "cm" "sedentary (little/no exercise)"
                           "b" "t" "r") 25 70 175); try reflexivity.
  - simpl. auto.
  - simpl. intuition discriminate.
Defined.

(** X21. Compute pressed right after Clear: if [int] rejects the empty
    string with a ValueError (as Python's does), the form shows the
    "Invalid input" dialog with the message of that error and stays at
    its defaults, the three labels still showing the placeholder. *)
Theorem clear_then_compute
  (int_of_str : string -> result Z) (float_of_str : string -> result float)
  (format_f : nat -> float -> string) (repr : string -> string)
  (app : tdee_gui.TDEEApp) (msg : string) :
  int_of_str "" = Raise (ValueError msg) ->
  tdee_gui.compute int_of_str float_of_str format_f repr (snd (tdee_gui.clear app))
  = (defaults, Some (tdee_gui.showerror "Invalid input" msg)).
Proof.
  intros H.
  change (snd (tdee_gui.clear app)) with defaults.
  unfold tdee_gui.compute, tdee_gui.compute_try, tdee_gui.mbind, tdee_gui.get,
    tdee_gui.lift.
  cbn [tdee_gui.age_var defaults]. now rewrite H.
Qed.

Lemma clear_then_compute_witness :
  Sample.compute (snd (tdee_gui.clear (Sample.filled "f" "30" "60" "165")))
  = (defaults,
     Some (tdee_gui.showerror "Invalid input"
             "invalid literal for int() with base 10: ''")).
Proof.
  apply (clear_then_compute Sample.int_of_str Sample.float_of_str Sample.format_f
           Sample.repr (Sample.filled "f" "30" "60" "165")).
  reflexivity.
Defined.
